(** * The Hydro query gateway (app.py), embedded and verified

    The program is a Flask application with four GET routes over a MongoDB
    database.  Each handler opens a client, validates the query-string
    parameters, issues one read, shapes the result and closes the client.

    The embedding follows the source line by line:
    - Python values are an inductive type [pyval] (None, bool, int, str, list,
      dict, ObjectId, datetime); floats are outside the value universe, and
      mappings have string keys, as BSON documents do;
    - text is a [string] holding one Latin-1 code point per character, which
      is enough to tell [str.isdigit] from what [int] accepts;
    - exceptions are values carrying their class and the text of [str(e)];
    - a handler is a computation in a state-and-exception monad whose state
      holds the handler's local [client] variable and the trace of what it
      did to the outside (client construction, ping, reads, close, prints);
    - what lies outside app.py (the process environment, the server behind
      the driver, the YAML loader) is a record [World] the handlers run
      against. *)

From Stdlib Require Import ZArith List String Ascii Bool Lia DecimalString.
Import ListNotations.

Local Open Scope string_scope.
Local Open Scope Z_scope.

Set Warnings "-register-all".

(** ** Python values, exceptions and the built-ins app.py calls *)
Module Py.

Inductive exn_class : Set :=
| ConnectionFailure   (* pymongo.errors.ConnectionFailure and its subclasses *)
| PyMongoError        (* any other pymongo error *)
| YAMLError           (* yaml.YAMLError and its subclasses *)
| InvalidId           (* bson.errors.InvalidId *)
| ValueError
| TypeError
| KeyError
| AttributeError
| OverflowError
| RuntimeError.

Scheme Equality for exn_class.

(** An exception: its class and the text [str(e)] gives. *)
Record exn : Set := mk_exn { class_of : exn_class; str_of_exn : string }.

Inductive outcome (A : Type) : Type :=
| Ok (a : A)
| Raise (e : exn).
Arguments Ok {A} a.
Arguments Raise {A} e.

Record datetime : Set := mk_datetime
  { year : Z; month : Z; day : Z; hour : Z; minute : Z; second : Z;
    microsecond : Z }.

Inductive pyval : Set :=
| PNone
| PBool (b : bool)
| PInt (n : Z)
| PStr (s : string)
| PList (items : list pyval)
| PDict (entries : list (string * pyval))
| PObjectId (oid : list Byte.byte)
| PDatetime (t : datetime).

Definition dict : Set := list (string * pyval).

(** *** Characters and strings *)

Definition code (c : ascii) : Z := Z.of_N (N_of_ascii c).

(** The decimal value of an ASCII digit ('0'..'9'); the Latin-1 range holds
    no other character of Unicode category Nd. *)
Definition decimal_value (c : ascii) : option Z :=
  if (48 <=? code c) && (code c <=? 57) then Some (code c - 48) else None.

(** [Py_UNICODE_ISDIGIT] on Latin-1: the decimal digits and the superscripts
    U+00B2, U+00B3 and U+00B9, whose Numeric_Type is Digit. *)
Definition is_digit_char (c : ascii) : bool :=
  match decimal_value c with
  | Some _ => true
  | None => (code c =? 178) || (code c =? 179) || (code c =? 185)
  end.

(** [str.isdigit()]: at least one character and every character a digit. *)
Definition isdigit (s : string) : bool :=
  match list_ascii_of_string s with
  | [] => false
  | cs => forallb is_digit_char cs
  end.

(** The characters [int()] skips around a literal: ASCII white space, and
    U+0085 and U+00A0, which the conversion first rewrites to a space. *)
Definition is_int_space (c : ascii) : bool :=
  ((9 <=? code c) && (code c <=? 13)) || (code c =? 32)
  || (code c =? 133) || (code c =? 160).

Fixpoint lstrip (cs : list ascii) : list ascii :=
  match cs with
  | c :: r => if is_int_space c then lstrip r else cs
  | [] => []
  end.

Definition strip (cs : list ascii) : list ascii := rev (lstrip (rev (lstrip cs))).

(** Digits with single underscores between them, after a first digit. *)
Fixpoint int_digits (acc : Z) (cs : list ascii) : option Z :=
  match cs with
  | [] => Some acc
  | c :: r =>
      match decimal_value c with
      | Some d => int_digits (10 * acc + d) r
      | None =>
          if (code c =? 95) then
            match r with
            | c2 :: r2 =>
                match decimal_value c2 with
                | Some d => int_digits (10 * acc + d) r2
                | None => None
                end
            | [] => None
            end
          else None
      end
  end.

Definition int_unsigned (cs : list ascii) : option Z :=
  match cs with
  | c :: r => match decimal_value c with
              | Some d => int_digits d r
              | None => None
              end
  | [] => None
  end.

Definition int_literal (cs : list ascii) : option Z :=
  match strip cs with
  | c :: r =>
      if code c =? 43 then int_unsigned r
      else if code c =? 45 then option_map Z.opp (int_unsigned r)
      else int_unsigned (c :: r)
  | [] => None
  end.

Definition hex_digit (n : Z) : ascii :=
  ascii_of_N (Z.to_N (if n <? 10 then 48 + n else 87 + n)).

Definition hex2 (n : Z) : string :=
  String (hex_digit (n / 16)) (String (hex_digit (n mod 16)) "").

Definition has_char (n : Z) (s : string) : bool :=
  existsb (fun c => code c =? n) (list_ascii_of_string s).

(** One character of [repr] of a str, for the quote character [q]. *)
Definition repr_char (q : Z) (c : ascii) : string :=
  let n := code c in
  if (n =? q) || (n =? 92) then String "\" (String c "")
  else if n =? 9 then "\t"
  else if n =? 10 then "\n"
  else if n =? 13 then "\r"
  else if (n <? 32) || ((127 <=? n) && (n <=? 160)) || (n =? 173)
       then "\x" ++ hex2 n
  else String c "".

(** [repr] of a str: single quotes, unless the text holds a single quote and
    no double quote. *)
Definition repr_str (s : string) : string :=
  let q := if has_char 39 s && negb (has_char 34 s) then 34 else 39 in
  let qs := String (ascii_of_N (Z.to_N q)) "" in
  qs ++ concat "" (map (repr_char q) (list_ascii_of_string s)) ++ qs.

Definition str_of_Z (n : Z) : string := NilZero.string_of_int (Z.to_int n).

(** [n] in decimal, padded with zeros on the left to [w] characters. *)
Definition zero_pad (w : nat) (n : Z) : string :=
  let s := str_of_Z n in
  concat "" (repeat "0" (w - String.length s)) ++ s.

Definition str_datetime (t : datetime) : string :=
  zero_pad 4 (year t) ++ "-" ++ zero_pad 2 (month t) ++ "-" ++ zero_pad 2 (day t)
  ++ " " ++ zero_pad 2 (hour t) ++ ":" ++ zero_pad 2 (minute t) ++ ":"
  ++ zero_pad 2 (second t)
  ++ (if microsecond t =? 0 then "" else "." ++ zero_pad 6 (microsecond t)).

Definition repr_datetime (t : datetime) : string :=
  "datetime.datetime(" ++ str_of_Z (year t) ++ ", " ++ str_of_Z (month t) ++ ", "
  ++ str_of_Z (day t) ++ ", " ++ str_of_Z (hour t) ++ ", " ++ str_of_Z (minute t)
  ++ (if microsecond t =? 0
      then (if second t =? 0 then "" else ", " ++ str_of_Z (second t))
      else ", " ++ str_of_Z (second t) ++ ", " ++ str_of_Z (microsecond t))
  ++ ")".

(** [binascii.hexlify] of a byte string, as text. *)
Definition hexlify (bs : list Byte.byte) : string :=
  concat "" (map (fun b => hex2 (Z.of_N (Byte.to_N b))) bs).

Fixpoint repr (v : pyval) : string :=
  match v with
  | PNone => "None"
  | PBool true => "True"
  | PBool false => "False"
  | PInt n => str_of_Z n
  | PStr s => repr_str s
  | PList l => "[" ++ concat ", " (map repr l) ++ "]"
  | PDict d =>
      "{" ++ concat ", "
               (map (fun kv => match kv with
                               | (k, x) => repr_str k ++ ": " ++ repr x
                               end) d) ++ "}"
  | PObjectId b => "ObjectId('" ++ hexlify b ++ "')"
  | PDatetime t => repr_datetime t
  end.

(** [str(v)] *)
Definition str (v : pyval) : string :=
  match v with
  | PStr s => s
  | PObjectId b => hexlify b
  | PDatetime t => str_datetime t
  | _ => repr v
  end.

(** The name Python prints for the type of a value. *)
Definition type_name (v : pyval) : string :=
  match v with
  | PNone => "NoneType"
  | PBool _ => "bool"
  | PInt _ => "int"
  | PStr _ => "str"
  | PList _ => "list"
  | PDict _ => "dict"
  | PObjectId _ => "ObjectId"
  | PDatetime _ => "datetime.datetime"
  end.

(** Truth value of an object, as [if x] and [not x] read it. *)
Definition truthy (v : pyval) : bool :=
  match v with
  | PNone => false
  | PBool b => b
  | PInt n => negb (n =? 0)
  | PStr s => negb (String.length s =? 0)%nat
  | PList l => match l with [] => false | _ => true end
  | PDict d => match d with [] => false | _ => true end
  | PObjectId _ => true
  | PDatetime _ => true
  end.

Fixpoint dict_get (k : string) (d : dict) : option pyval :=
  match d with
  | [] => None
  | (k', v) :: r => if String.eqb k k' then Some v else dict_get k r
  end.

(** [d.get(k, default)] *)
Definition get_or (d : dict) (k : string) (default : pyval) : pyval :=
  match dict_get k d with
  | Some v => v
  | None => default
  end.

(** [d.get(k)] *)
Definition get (d : dict) (k : string) : pyval := get_or d k PNone.

(** [d[k]] on a dict: the value, or KeyError whose text is the key's repr. *)
Definition getitem (d : dict) (k : string) : outcome pyval :=
  match dict_get k d with
  | Some v => Ok v
  | None => Raise (mk_exn KeyError (repr_str k))
  end.

(** [s.isdigit()] as a method call on an object. *)
Definition call_isdigit (v : pyval) : outcome bool :=
  match v with
  | PStr s => Ok (isdigit s)
  | _ => Raise (mk_exn AttributeError
                  ("'" ++ type_name v ++ "' object has no attribute 'isdigit'"))
  end.

(** [x.get(k, default)] as a method call on an object. *)
Definition call_get (v : pyval) (k : string) (default : pyval) : outcome pyval :=
  match v with
  | PDict d => Ok (get_or d k default)
  | _ => Raise (mk_exn AttributeError
                  ("'" ++ type_name v ++ "' object has no attribute 'get'"))
  end.

Fixpoint is_prefix (p s : list ascii) : bool :=
  match p, s with
  | [], _ => true
  | a :: p', b :: s' => Ascii.eqb a b && is_prefix p' s'
  | _ :: _, [] => false
  end.

Fixpoint is_infix (p s : list ascii) : bool :=
  is_prefix p s || match s with
                   | [] => false
                   | _ :: s' => is_infix p s'
                   end.

Definition is_str (k : string) (v : pyval) : bool :=
  match v with
  | PStr s => String.eqb k s
  | _ => false
  end.

(** [k in x] for a str [k]. *)
Definition contains (x : pyval) (k : string) : outcome bool :=
  match x with
  | PDict d => Ok (match dict_get k d with Some _ => true | None => false end)
  | PList l => Ok (existsb (is_str k) l)
  | PStr s => Ok (is_infix (list_ascii_of_string k) (list_ascii_of_string s))
  | _ => Raise (mk_exn TypeError
                  ("argument of type '" ++ type_name x ++ "' is not iterable"))
  end.

(** [x[k]] for a str [k]. *)
Definition subscript (x : pyval) (k : string) : outcome pyval :=
  match x with
  | PDict d => getitem d k
  | PList _ =>
      Raise (mk_exn TypeError "list indices must be integers or slices, not str")
  | PStr _ =>
      Raise (mk_exn TypeError "string indices must be integers, not 'str'")
  | _ => Raise (mk_exn TypeError
                  ("'" ++ type_name x ++ "' object is not subscriptable"))
  end.

(** The elements [for y in x] runs over. *)
Definition iter (x : pyval) : outcome (list pyval) :=
  match x with
  | PList l => Ok l
  | PDict d => Ok (map (fun kv => PStr (fst kv)) d)
  | PStr s => Ok (map (fun c => PStr (String c "")) (list_ascii_of_string s))
  | _ => Raise (mk_exn TypeError
                  ("'" ++ type_name x ++ "' object is not iterable"))
  end.

Definition as_int (v : pyval) : option Z :=
  match v with
  | PInt n => Some n
  | PBool b => Some (if b then 1 else 0)
  | _ => None
  end.

(** [a + b] *)
Definition add (a b : pyval) : outcome pyval :=
  match as_int a, as_int b with
  | Some m, Some n => Ok (PInt (m + n))
  | _, _ =>
      match a, b with
      | PStr s, PStr t => Ok (PStr (s ++ t))
      | PList l, PList r => Ok (PList (l ++ r))
      | _, _ =>
          Raise (mk_exn TypeError
                   ("unsupported operand type(s) for +: '" ++ type_name a
                    ++ "' and '" ++ type_name b ++ "'"))
      end
  end.

(** [a += b] where [a] is an int, as [total_score] is: the sum, or the
    TypeError of an operand that is no number.  (An [a] that is no int is
    not reached by app.py; it is added as [+] adds.) *)
Definition iadd (a b : pyval) : outcome pyval :=
  match as_int a, as_int b with
  | Some m, Some n => Ok (PInt (m + n))
  | Some _, None =>
      Raise (mk_exn TypeError
               ("unsupported operand type(s) for +=: '" ++ type_name a
                ++ "' and '" ++ type_name b ++ "'"))
  | None, _ => add a b
  end.

(** [int(x)] for the arguments app.py passes: a str or an int.  The
    interpreter's limit on the length of a decimal literal (4300 digits by
    default, [sys.set_int_max_str_digits]) is not part of the definition: a
    statement that needs [int] to succeed on a text carries the bound. *)
Definition int (v : pyval) : outcome Z :=
  match v with
  | PInt n => Ok n
  | PBool b => Ok (if b then 1 else 0)
  | PStr s =>
      match int_literal (list_ascii_of_string s) with
      | Some n => Ok n
      | None =>
          Raise (mk_exn ValueError
                   ("invalid literal for int() with base 10: "
                    ++ substring 0 200 (repr_str s)))
      end
  | _ =>
      Raise (mk_exn TypeError
               ("int() argument must be a string, a bytes-like object or a real number, not '"
                ++ type_name v ++ "'"))
  end.

End Py.

(** ** bson.objectid.ObjectId on a str argument *)
Module Bson.
Import Py.

Definition hex_value (c : ascii) : option Z :=
  let n := code c in
  if (48 <=? n) && (n <=? 57) then Some (n - 48)
  else if (97 <=? n) && (n <=? 102) then Some (n - 87)
  else if (65 <=? n) && (n <=? 70) then Some (n - 55)
  else None.

Definition is_ascii_space (c : ascii) : bool :=
  ((9 <=? code c) && (code c <=? 13)) || (code c =? 32).

Definition byte_of_Z (n : Z) : Byte.byte := byte_of_ascii (ascii_of_N (Z.to_N n)).

(** [bytes.fromhex]: pairs of hexadecimal digits, white space allowed between
    the pairs. *)
Fixpoint fromhex (cs : list ascii) : option (list Byte.byte) :=
  match cs with
  | [] => Some []
  | c :: r =>
      if is_ascii_space c then fromhex r
      else match hex_value c, r with
           | Some hi, c2 :: r2 =>
               match hex_value c2 with
               | Some lo => option_map (cons (byte_of_Z (16 * hi + lo))) (fromhex r2)
               | None => None
               end
           | _, _ => None
           end
  end.

(** [ObjectId(oid)] for the argument app.py passes: a str is accepted when it
    has 24 characters that [bytes.fromhex] reads. *)
Definition ObjectId (oid : pyval) : outcome (list Byte.byte) :=
  match oid with
  | PStr s =>
      let invalid :=
        Raise (mk_exn InvalidId
                 (repr_str s ++ " is not a valid ObjectId, it must be a 12-byte input or a 24-character hex string")) in
      if (String.length s =? 24)%nat then
        match fromhex (list_ascii_of_string s) with
        | Some bs => Ok bs
        | None => invalid
        end
      else invalid
  | _ =>
      Raise (mk_exn TypeError
               ("id must be an instance of (bytes, str, ObjectId), not <class '"
                ++ type_name oid ++ "'>"))
  end.

End Bson.
Import Py.

(** ** The world outside app.py, and the monad the handlers run in *)

(** A [pymongo.MongoClient], identified by what it was built from. *)
Record Client : Set := mk_client { client_host : string; client_port : Z }.

(** What a handler does to the outside, in the order it does it. *)
Inductive Event : Set :=
| EvPrint (line : string)
| EvMongoClient (c : Client)              (* a client object was built *)
| EvPing (c : Client)                     (* client.admin.command('ping') *)
| EvFind (coll : string) (filter projection : dict)
| EvFindOne (coll : string) (filter projection : dict)
| EvClose (c : Client).                   (* client.close() *)

(** Everything app.py reads from outside itself.  A cursor is read to its
    end: [find] gives the documents in the server's natural order, or the
    error the driver raised while reading them. *)
Record World : Type := mk_world
  { environ : string -> option string;
    mongo_client : string -> Z -> outcome unit;
    ping : Client -> outcome unit;
    find : string -> dict -> dict -> outcome (list dict);
    find_one : string -> dict -> dict -> outcome (option dict);
    safe_load : pyval -> outcome pyval }.

(** The handler's [client] variable, and the events so far, latest first. *)
Record State : Set := mk_state { client_var : option Client; history : list Event }.

Definition M (A : Type) : Type := State -> outcome A * State.

Definition ret {A : Type} (a : A) : M A := fun s => (Ok a, s).

Definition bind {A B : Type} (m : M A) (k : A -> M B) : M B :=
  fun s => match m s with
           | (Ok a, s') => k a s'
           | (Raise e, s') => (Raise e, s')
           end.

Definition raise {A : Type} (e : exn) : M A := fun s => (Raise e, s).

Definition lift {A : Type} (o : outcome A) : M A := fun s => (o, s).

Definition emit (ev : Event) : M unit :=
  fun s => (Ok tt, mk_state (client_var s) (ev :: history s)).

Definition set_client (c : option Client) : M unit :=
  fun s => (Ok tt, mk_state c (history s)).

Definition get_client : M (option Client) := fun s => (Ok (client_var s), s).

(** [try: body  except ... as e: handler e]; a handler that does not match
    the exception raises it again. *)
Definition try_except {A : Type} (body : M A) (handler : exn -> M A) : M A :=
  fun s => match body s with
           | (Ok a, s') => (Ok a, s')
           | (Raise e, s') => handler e s'
           end.

(** [try: body  finally: final] *)
Definition try_finally {A : Type} (body : M A) (final : M unit) : M A :=
  fun s => match body s with
           | (r, s') => match final s' with
                        | (Ok _, s'') => (r, s'')
                        | (Raise e, s'') => (Raise e, s'')
                        end
           end.

Declare Scope py_scope.
Delimit Scope py_scope with py.
Notation "x <- c ;; k" := (bind c (fun x => k))
  (at level 100, c at next level, right associativity) : py_scope.
Notation "c ;; k" := (bind c (fun _ => k))
  (at level 100, right associativity) : py_scope.
Local Open Scope py_scope.

(** Sequencing in the exception monad alone, for code that has no effect. *)
Definition obind {A B : Type} (o : outcome A) (k : A -> outcome B) : outcome B :=
  match o with
  | Ok a => k a
  | Raise e => Raise e
  end.
Notation "x <~ c ;; k" := (obind c (fun x => k))
  (at level 100, c at next level, right associativity) : py_scope.

(** A [for] loop (or comprehension) that collects one value per element. *)
Fixpoint for_each {A B : Type} (xs : list A) (f : A -> M B) : M (list B) :=
  match xs with
  | [] => ret []
  | x :: r => y <- f x ;; ys <- for_each r f ;; ret (y :: ys)
  end.

Fixpoint ofor_each {A B : Type} (xs : list A) (f : A -> outcome B) : outcome (list B) :=
  match xs with
  | [] => Ok []
  | x :: r => y <~ f x ;; ys <~ ofor_each r f ;; Ok (y :: ys)
  end.

Definition print (line : string) : M unit := emit (EvPrint line).

(** [isinstance(e, c)]: a class of the list stands for its subclasses too. *)
Definition isinstance (e : exn) (c : exn_class) : bool :=
  exn_class_beq (class_of e) c.

(** ** Flask: the request's query string, [jsonify] and the response *)
Module Flask.

(** [request.args]: the pairs of the query string, in order. *)
Definition Request : Set := list (string * string).

Fixpoint lookup (k : string) (args : Request) : option string :=
  match args with
  | [] => None
  | (k', v) :: r => if String.eqb k k' then Some v else lookup k r
  end.

(** [request.args.get(k, default)] *)
Definition args_get_or (args : Request) (k : string) (default : pyval) : pyval :=
  match lookup k args with
  | Some v => PStr v
  | None => default
  end.

(** [request.args.get(k)] *)
Definition args_get (args : Request) (k : string) : pyval := args_get_or args k PNone.

(** Whether the JSON provider can write a value: an ObjectId is the one value
    of the universe it has no rule for. *)
Fixpoint serializable (v : pyval) : bool :=
  match v with
  | PObjectId _ => false
  | PList l => forallb serializable l
  | PDict d => forallb (fun kv => match kv with (_, x) => serializable x end) d
  | _ => true
  end.

(** The view's return value [jsonify(body), status].  The body is kept as
    the object handed to [jsonify]; its bytes are that object's rendering. *)
Record Response : Set := mk_response { body : pyval; status : Z }.

Definition jsonify (v : pyval) : outcome pyval :=
  if serializable v then Ok v
  else Raise (mk_exn TypeError "Object of type ObjectId is not JSON serializable").

End Flask.
Import Flask.

(** ** app.py *)
Module App.

Definition environ_get (w : World) (k default : string) : string :=
  match environ w k with
  | Some v => v
  | None => default
  end.

(** [pymongo.MongoClient(host=..., port=..., serverSelectionTimeoutMS=5000)] *)
Definition MongoClient (w : World) (host : string) (port : Z) : M Client :=
  lift (mongo_client w host port) ;;
  emit (EvMongoClient (mk_client host port)) ;;
  ret (mk_client host port).

(** [client.admin.command('ping')] *)
Definition admin_command_ping (w : World) (client : Client) : M unit :=
  emit (EvPing client) ;;
  lift (ping w client).

Definition get_mongo_client (w : World) : M Client :=
  let mongo_host := environ_get w "MONGO_HOST" "oj-mongo" in
  mongo_port <- lift (Py.int (PStr (environ_get w "MONGO_PORT" "27017"))) ;;
  try_except
    (client <- MongoClient w mongo_host mongo_port ;;
     admin_command_ping w client ;;
     ret client)
    (fun e =>
       if isinstance e ConnectionFailure then
         print ("Failed to connect to MongoDB: " ++ str_of_exn e) ;;
         raise e
       else raise e).

Definition close_mongo_client (client : option Client) : M unit :=
  match client with
  | Some c => emit (EvClose c)
  | None => ret tt
  end.

(** [db[coll].find(filter, projection)], read to the end. *)
Definition db_find (w : World) (coll : string) (filter projection : dict)
  : M (list dict) :=
  emit (EvFind coll filter projection) ;;
  lift (find w coll filter projection).

(** [db[coll].find_one(filter, projection)]: a document or None. *)
Definition db_find_one (w : World) (coll : string) (filter projection : dict)
  : M pyval :=
  emit (EvFindOne coll filter projection) ;;
  r <- lift (find_one w coll filter projection) ;;
  ret (match r with
       | Some d => PDict d
       | None => PNone
       end).

(** [return jsonify(v), code] *)
Definition respond (v : pyval) (code : Z) : M Response :=
  b <- lift (jsonify v) ;;
  ret (mk_response b code).

Definition error_body (msg : string) : pyval := PDict [("error", PStr msg)].

(** The two [except] clauses every handler ends with. *)
Definition on_exception (e : exn) : M Response :=
  if isinstance e ConnectionFailure then
    respond (error_body "Failed to connect to MongoDB") 500
  else
    respond (error_body (str_of_exn e)) 500.

(** The frame every handler has: [client = None], the [try] with its two
    [except] clauses, and [finally: close_mongo_client(client)]. *)
Definition handler (w : World) (view : M Response) : M Response :=
  set_client None ;;
  try_finally
    (try_except
       (client <- get_mongo_client w ;;
        set_client (Some client) ;;
        view)
       on_exception)
    (client <- get_client ;;
     close_mongo_client client).

(** One element of the docType 30 comprehension. *)
Definition contest_item (doc : dict) : outcome pyval :=
  _id <~ getitem doc "_id" ;;
  title <~ getitem doc "title" ;;
  Ok (PDict [("_id", PStr (str _id));
             ("docId", PStr (str (get doc "docId")));
             ("title", title);
             ("beginAt", get doc "beginAt");
             ("pids", get_or doc "pids" (PList []))]).

(** [for subtask in ...: total_score += subtask.get('score', 0)] *)
Fixpoint add_scores (total_score : pyval) (subtasks : list pyval) : outcome pyval :=
  match subtasks with
  | [] => Ok total_score
  | subtask :: rest =>
      score <~ call_get subtask "score" (PInt 0) ;;
      total_score' <~ iadd total_score score ;;
      add_scores total_score' rest
  end.

(** Lines 79-82: the score of a parsed config. *)
Definition total_score (config_data : pyval) : outcome pyval :=
  if truthy config_data then
    has_subtasks <~ contains config_data "subtasks" ;;
    if has_subtasks : bool then
      subtasks <~ subscript config_data "subtasks" ;;
      elems <~ iter subtasks ;;
      add_scores (PInt 0) elems
    else Ok (PInt 0)
  else Ok (PInt 0).

(** The body of the docType 10 loop: the value appended to [result]. *)
Definition problem_item (w : World) (doc : dict) : M pyval :=
  try_except
    (config <- lift (getitem doc "config") ;;
     config_data <- lift (safe_load w config) ;;
     score <- lift (total_score config_data) ;;
     _id <- lift (getitem doc "_id") ;;
     docId <- lift (getitem doc "docId") ;;
     title <- lift (getitem doc "title") ;;
     pid <- lift (getitem doc "pid") ;;
     ret (PDict [("_id", PStr (str _id)); ("docId", docId); ("title", title);
                 ("pid", pid); ("score", score)]))
    (fun e =>
       if isinstance e YAMLError then
         print ("Error parsing YAML config: " ++ str_of_exn e) ;;
         _id <- lift (getitem doc "_id") ;;
         docId <- lift (getitem doc "docId") ;;
         title <- lift (getitem doc "title") ;;
         pid <- lift (getitem doc "pid") ;;
         ret (PDict [("_id", PStr (str _id)); ("docId", docId); ("title", title);
                     ("pid", pid); ("score", PInt 0);
                     ("error", PStr "Invalid config format")])
       else raise e).

Definition one : pyval := PInt 1.

(** The view of [GET /hydro/document], inside the handler's [try]. *)
Definition documents_view (w : World) (args : Request) : M Response :=
  let domain_id := args_get args "domainId" in
  doc_type <- lift (Py.int (args_get_or args "docType" (PInt 0))) ;;
  if negb (truthy domain_id) then
    respond (error_body "domainId is required") 400
  else if doc_type =? 30 then
    documents <- db_find w "document"
                   [("domainId", domain_id); ("docType", PInt 30)]
                   [("_id", one); ("docId", one); ("title", one);
                    ("beginAt", one); ("pids", one)] ;;
    result <- lift (ofor_each documents contest_item) ;;
    respond (PList result) 200
  else if doc_type =? 10 then
    documents <- db_find w "document"
                   [("domainId", domain_id); ("docType", PInt 10)]
                   [("_id", one); ("docId", one); ("title", one);
                    ("pid", one); ("config", one)] ;;
    result <- for_each documents (problem_item w) ;;
    respond (PList result) 200
  else
    respond (error_body "Invalid docType") 400.

Definition get_documents (w : World) (args : Request) : M Response :=
  handler w (documents_view w args).

(** One element of the record comprehension. *)
Definition record_item (record : dict) : outcome pyval :=
  _id <~ getitem record "_id" ;;
  status <~ getitem record "status" ;;
  uid <~ getitem record "uid" ;;
  pid <~ getitem record "pid" ;;
  score <~ getitem record "score" ;;
  Ok (PDict [("_id", PStr (str _id)); ("status", status); ("uid", uid);
             ("pid", pid); ("score", score); ("judgeAt", get record "judgeAt")]).

(** The view of [GET /hydro/record]. *)
Definition records_view (w : World) (args : Request) : M Response :=
  let domain_id := args_get args "domainId" in
  let contest_id_str := args_get args "contest" in
  if negb (truthy domain_id) then
    respond (error_body "domainId is required") 400
  else if negb (truthy contest_id_str) then
    respond (error_body "contest is required") 400
  else
    match Bson.ObjectId contest_id_str with
    | Raise _ => respond (error_body "Invalid contest ObjectId") 400
    | Ok contest_id =>
        records <- db_find w "record"
                     [("domainId", domain_id); ("contest", PObjectId contest_id)]
                     [("_id", one); ("status", one); ("uid", one); ("pid", one);
                      ("score", one); ("judgeAt", one)] ;;
        result <- lift (ofor_each records record_item) ;;
        respond (PList result) 200
    end.

Definition get_records (w : World) (args : Request) : M Response :=
  handler w (records_view w args).

(** The view of [GET /hydro/user]. *)
Definition user_view (w : World) (args : Request) : M Response :=
  let user_id := args_get args "_id" in
  if negb (truthy user_id) then
    respond (error_body "_id is required") 400
  else
    digits <- lift (call_isdigit user_id) ;;
    if negb digits then
      respond (error_body "_id must be an integer") 400
    else
      n <- lift (Py.int user_id) ;;
      user <- db_find_one w "user" [("_id", PInt n)] [("uname", one)] ;;
      if truthy user then
        uname <- lift (subscript user "uname") ;;
        respond (PDict [("uname", uname)]) 200
      else
        respond (error_body "User not found") 404.

Definition get_user (w : World) (args : Request) : M Response :=
  handler w (user_view w args).

(** One element of the user-group comprehension. *)
Definition group_item (group : dict) : outcome pyval :=
  _id <~ getitem group "_id" ;;
  name <~ getitem group "name" ;;
  Ok (PDict [("_id", PStr (str _id)); ("name", name);
             ("uids", get_or group "uids" (PList []))]).

(** The view of [GET /hydro/user/group]. *)
Definition user_groups_view (w : World) (args : Request) : M Response :=
  let domain_id := args_get args "domainId" in
  if negb (truthy domain_id) then
    respond (error_body "domainId is required") 400
  else
    user_groups <- db_find w "user.group" [("domainId", domain_id)]
                     [("_id", one); ("name", one); ("uids", one)] ;;
    result <- lift (ofor_each user_groups group_item) ;;
    respond (PList result) 200.

Definition get_user_groups (w : World) (args : Request) : M Response :=
  handler w (user_groups_view w args).

(** The four routes of the application. *)
Inductive Route : Set := Document | Record_ | User | UserGroup.

Definition dispatch (r : Route) (w : World) (args : Request) : M Response :=
  match r with
  | Document => get_documents w args
  | Record_ => get_records w args
  | User => get_user w args
  | UserGroup => get_user_groups w args
  end.

(** A request served from a state whose history is whatever came before. *)
Definition serve (r : Route) (w : World) (args : Request) (before : State)
  : outcome Response * State :=
  dispatch r w args before.

End App.

(** ** app.py, the [__main__] block (lines 225-249) *)
Module Main.

(** The process as the block sees it: the environment, the module's global
    [DOCKER_PORT], the lines printed and the calls of [app.run], both latest
    first. *)
Record Process : Set := mk_process
  { os_environ : list (string * string);
    DOCKER_PORT : pyval;
    stdout : list string;
    runs : list (string * pyval) }.

(** How a call of [app.run] ends: it returns, it raises an Exception, or it
    raises what is not an Exception (SystemExit, KeyboardInterrupt), which
    [except Exception] does not catch. *)
Inductive stop : Set :=
| Returned
| RaisedException (e : exn)
| RaisedOther (what : string).

(** How the block ends: normally, or with what it did not catch. *)
Inductive ending : Set :=
| Finished
| Uncaught (e : exn)
| Propagated (what : string).

(** What the block reads from outside itself: config.yaml, which is absent
    or gives what opening and loading it gives, and how [app.run] ends once
    the server stops. *)
Record Host : Type := mk_host
  { config_yaml : option (outcome pyval);
    app_run : string -> pyval -> stop }.

Definition B (A : Type) : Type := Process -> outcome A * Process.

Definition bret {A : Type} (a : A) : B A := fun p => (Ok a, p).

Definition bbind {A B' : Type} (m : B A) (k : A -> B B') : B B' :=
  fun p => match m p with
           | (Ok a, p') => k a p'
           | (Raise e, p') => (Raise e, p')
           end.

Definition blift {A : Type} (o : outcome A) : B A := fun p => (o, p).

Definition btry {A : Type} (body : B A) (handler : exn -> B A) : B A :=
  fun p => match body p with
           | (Ok a, p') => (Ok a, p')
           | (Raise e, p') => handler e p'
           end.

Notation "x <-- c ;; k" := (bbind c (fun x => k))
  (at level 100, c at next level, right associativity) : py_scope.
Notation "c ;;; k" := (bbind c (fun _ => k))
  (at level 100, right associativity) : py_scope.

Definition print (line : string) : B unit :=
  fun p => (Ok tt, mk_process (os_environ p) (DOCKER_PORT p) (line :: stdout p)
                     (runs p)).

Fixpoint getenv (env : list (string * string)) (k : string) : option string :=
  match env with
  | [] => None
  | (k', v) :: r => if String.eqb k k' then Some v else getenv r k
  end.

(** [os.environ.get(k, default)] *)
Definition environ_get (k default : string) : B string :=
  fun p => (Ok match getenv (os_environ p) k with
               | Some v => v
               | None => default
               end, p).

(** The name of a value's class, as [type(v).__name__] gives it. *)
Definition class_name (v : pyval) : string :=
  match v with
  | PDatetime _ => "datetime"
  | _ => type_name v
  end.

(** [os.environ[k] = v]: the value must be a str without a null character. *)
Definition environ_setitem (k : string) (v : pyval) : B unit :=
  match v with
  | PStr s =>
      if has_char 0 s then blift (Raise (mk_exn ValueError "embedded null byte"))
      else fun p =>
             (Ok tt,
              mk_process
                ((k, s) :: List.filter (fun kv => negb (String.eqb k (fst kv)))
                                       (os_environ p))
                (DOCKER_PORT p) (stdout p) (runs p))
  | _ => blift (Raise (mk_exn TypeError ("str expected, not " ++ class_name v)))
  end.

Definition get_DOCKER_PORT : B pyval := fun p => (Ok (DOCKER_PORT p), p).

Definition set_DOCKER_PORT (v : pyval) : B unit :=
  fun p => (Ok tt, mk_process (os_environ p) v (stdout p) (runs p)).

(** [app.run(host=..., port=...)] *)
Definition run (h : Host) (host : string) (port : pyval)
  : Process -> stop * Process :=
  fun p => (app_run h host port,
            mk_process (os_environ p) (DOCKER_PORT p) (stdout p)
              ((host, port) :: runs p)).

Definition config_file : string := "config.yaml".

(** Lines 232-238: what the block does with the loaded config. *)
Definition apply_config (config : pyval) : B unit :=
  if truthy config then
    host_default <-- environ_get "MONGO_HOST" "oj-mongo" ;;
    MONGO_HOST <-- blift (call_get config "mongo_host" (PStr host_default)) ;;
    port_default <-- get_DOCKER_PORT ;;
    port <-- blift (call_get config "docker_port" port_default) ;;
    set_DOCKER_PORT port ;;;
    environ_setitem "MONGO_HOST" MONGO_HOST ;;;
    print ("Using MONGO_HOST from " ++ config_file ++ ": " ++ str MONGO_HOST) ;;;
    print ("Using DOCKER_PORT from " ++ config_file ++ ": " ++ str port)
  else bret tt.

(** Lines 227-245: reading config.yaml. *)
Definition load_config (h : Host) : B unit :=
  match config_yaml h with
  | Some loaded =>
      btry
        (config <-- blift loaded ;;
         apply_config config)
        (fun e =>
           if isinstance e YAMLError then
             print ("Error reading config file " ++ config_file ++ ": "
                    ++ str_of_exn e)
           else
             print ("An unexpected error occurred while reading config file: "
                    ++ str_of_exn e))
  | None =>
      print ("Config file " ++ config_file
             ++ " not found, using environment variables or defaults.")
  end.

(** The whole block: the config, then [app.run] inside a [try] whose one
    clause is [except Exception]. *)
Definition main (h : Host) : Process -> ending * Process :=
  fun p =>
    match load_config h p with
    | (Raise e, p1) => (Uncaught e, p1)
    | (Ok _, p1) =>
        match run h "0.0.0.0" (DOCKER_PORT p1) p1 with
        | (Returned, p2) => (Finished, p2)
        | (RaisedException e, p2) =>
            (Finished, snd (print ("An error occurred: " ++ str_of_exn e) p2))
        | (RaisedOther what, p2) => (Propagated what, p2)
        end
    end.

(** The process when the block starts: [DOCKER_PORT = 5000] (line 11). *)
Definition start (env : list (string * string)) : Process :=
  mk_process env (PInt 5000) [] [].

End Main.

(** ** A world to run the handlers against: collections held in memory *)
Module Fixture.

Fixpoint pyval_eqb (a b : pyval) : bool :=
  match a, b with
  | PNone, PNone => true
  | PBool x, PBool y => Bool.eqb x y
  | PInt x, PInt y => x =? y
  | PStr x, PStr y => String.eqb x y
  | PList xs, PList ys =>
      (fix all2 (xs ys : list pyval) : bool :=
         match xs, ys with
         | [], [] => true
         | x :: xs', y :: ys' => pyval_eqb x y && all2 xs' ys'
         | _, _ => false
         end) xs ys
  | PDict xs, PDict ys =>
      (fix all2 (xs ys : list (string * pyval)) : bool :=
         match xs, ys with
         | [], [] => true
         | (k, x) :: xs', (k', y) :: ys' =>
             String.eqb k k' && pyval_eqb x y && all2 xs' ys'
         | _, _ => false
         end) xs ys
  | PObjectId x, PObjectId y => String.eqb (hexlify x) (hexlify y)
  | PDatetime x, PDatetime y => String.eqb (str_datetime x) (str_datetime y)
  | _, _ => false
  end.

(** A document matches a filter when it holds every pair of the filter. *)
Definition matches (filter doc : dict) : bool :=
  forallb (fun kv => match dict_get (fst kv) doc with
                     | Some v => pyval_eqb v (snd kv)
                     | None => false
                     end) filter.

(** A projection keeps [_id] and the fields it names. *)
Definition project (projection doc : dict) : dict :=
  List.filter (fun kv => String.eqb (fst kv) "_id"
                         || existsb (String.eqb (fst kv)) (map fst projection)) doc.

Definition Database : Set := list (string * list dict).

Fixpoint collection (db : Database) (coll : string) : list dict :=
  match db with
  | [] => []
  | (name, docs) :: r => if String.eqb coll name then docs else collection r coll
  end.

Definition select (db : Database) (coll : string) (filter projection : dict)
  : list dict :=
  map (project projection) (List.filter (matches filter) (collection db coll)).

(** A YAML loader given by the texts it knows. *)
Fixpoint load_from (table : list (string * outcome pyval)) (text : string)
  : outcome pyval :=
  match table with
  | [] => Raise (mk_exn RuntimeError "text outside the table")
  | (t, r) :: rest => if String.eqb text t then r else load_from rest text
  end.

Definition loader (table : list (string * outcome pyval)) (v : pyval)
  : outcome pyval :=
  match v with
  | PStr text => load_from table text
  | _ => Raise (mk_exn AttributeError
                  ("'" ++ type_name v ++ "' object has no attribute 'read'"))
  end.

Definition timeout : exn :=
  mk_exn ConnectionFailure "oj-mongo:27017: [Errno 111] Connection refused".

(** The world of a server that is up or down, with the given collections,
    process environment and YAML texts. *)
Definition world (up : bool) (env : list (string * string)) (db : Database)
                 (table : list (string * outcome pyval)) : World :=
  mk_world (fun k => Flask.lookup k env)
           (fun _ _ => Ok tt)
           (fun _ => if up then Ok tt else Raise timeout)
           (fun coll filter projection => Ok (select db coll filter projection))
           (fun coll filter projection =>
              Ok (hd_error (select db coll filter projection)))
           (loader table).

Definition oid (s : string) : pyval :=
  match Bson.ObjectId (PStr s) with
  | Ok bs => PObjectId bs
  | Raise _ => PNone
  end.

(** The state a process is in before it has served anything. *)
Definition fresh : State := mk_state None [].

(** Superscript two, U+00B2. *)
Definition superscript_two : string := String (ascii_of_N 178) "".

Definition yaml_texts : list (string * outcome pyval) :=
  [ ("subtasks:
- score: 40
- score: 60
", Ok (PDict [("subtasks", PList [PDict [("score", PInt 40)];
                                  PDict [("score", PInt 60)]])]));
    ("subtasks:
- score: 50
- id: 2
", Ok (PDict [("subtasks", PList [PDict [("score", PInt 50)];
                                  PDict [("id", PInt 2)]])]));
    ("time: 1s
", Ok (PDict [("time", PStr "1s")]));
    ("", Ok PNone);
    ("subtasks:
", Ok (PDict [("subtasks", PNone)]));
    ("subtasks: [", Raise (mk_exn YAMLError
        "while parsing a flow node
expected the node content, but found '<stream end>'")) ].

Definition problem (domain id : string) (docId : Z) (title pid config : string)
  : dict :=
  [("_id", oid id); ("docType", PInt 10); ("domainId", PStr domain);
   ("docId", PInt docId); ("title", PStr title); ("pid", PStr pid);
   ("config", PStr config); ("owner", PInt 2)].

Definition documents : list dict :=
  [ problem "system" "665f1f77bcf86cd799439011" 1 "A+B" "P1000" "subtasks:
- score: 40
- score: 60
";
    problem "system" "665f1f77bcf86cd799439012" 2 "Broken" "P1001" "subtasks: [";
    problem "system" "665f1f77bcf86cd799439013" 3 "Partial" "P1002" "subtasks:
- score: 50
- id: 2
";
    problem "system" "665f1f77bcf86cd799439014" 4 "Plain" "P1003" "time: 1s
";
    [("_id", oid "665f1f77bcf86cd799439021"); ("docType", PInt 30);
     ("domainId", PStr "system"); ("docId", oid "665f1f77bcf86cd799439021");
     ("title", PStr "Round 1");
     ("beginAt", PDatetime (mk_datetime 2024 5 1 9 0 0 0));
     ("pids", PList [PInt 1; PInt 2])];
    [("_id", oid "665f1f77bcf86cd799439022"); ("docType", PInt 30);
     ("domainId", PStr "system"); ("docId", oid "665f1f77bcf86cd799439022");
     ("title", PStr "Round 2")];
    problem "drafts" "665f1f77bcf86cd799439015" 5 "Null" "P2000" "subtasks:
" ].

Definition database : Database :=
  [ ("document", documents);
    ("record",
     [ [("_id", oid "665f1f77bcf86cd799439031"); ("domainId", PStr "system");
        ("contest", oid "665f1f77bcf86cd799439021"); ("status", PInt 1);
        ("uid", PInt 42); ("pid", PInt 1); ("score", PInt 100)] ]);
    ("user", [ [("_id", PInt 42); ("uname", PStr "alice"); ("mail", PStr "a@b.c")] ]);
    ("user.group",
     [ [("_id", oid "665f1f77bcf86cd799439041"); ("domainId", PStr "system");
        ("name", PStr "class-1"); ("uids", PList [PInt 42])] ]) ].

Definition up : World := world true [] database yaml_texts.
Definition down : World := world false [] database yaml_texts.

End Fixture.
Import App.

(** * Properties of the handlers *)

(** ** Acquiring and releasing the client *)

(** What [get_mongo_client] returns or raises in a world. *)
Definition connect_result (w : World) : outcome Client :=
  fst (get_mongo_client w (mk_state None [])).

(** The events of the connection life cycle. *)
Definition is_lifecycle (ev : Event) : bool :=
  match ev with
  | EvMongoClient _ | EvPing _ | EvClose _ => true
  | _ => false
  end.

(** The reads a handler sends to the database. *)
Definition is_query (ev : Event) : bool :=
  match ev with
  | EvFind _ _ _ | EvFindOne _ _ _ => true
  | _ => false
  end.

Definition count (p : Event -> bool) (evs : list Event) : nat :=
  List.length (List.filter p evs).

Definition is_attempt (ev : Event) : bool :=
  match ev with
  | EvMongoClient _ => true
  | _ => false
  end.

Lemma get_mongo_client_ok (w : World) (c : Client) :
  connect_result w = Ok c ->
  forall s, get_mongo_client w s
            = (Ok c, mk_state (client_var s)
                       (EvPing c :: EvMongoClient c :: history s)).
Proof.
  unfold connect_result, get_mongo_client, MongoClient, admin_command_ping.
  unfold bind, lift, try_except, emit, ret, print, raise.
  destruct (Py.int _) as [port | e]; cbn; [ | discriminate ].
  destruct (mongo_client w _ port) as [ [] | e ]; cbn.
  - destruct (ping w _) as [ [] | e ]; cbn.
    + intros H s. injection H as <-. reflexivity.
    + destruct (isinstance e ConnectionFailure); cbn; discriminate.
  - destruct (isinstance e ConnectionFailure); cbn; discriminate.
Qed.

(** A failed acquisition leaves the [client] variable alone, closes nothing,
    and has tried once. *)
Lemma get_mongo_client_raise (w : World) (e : exn) :
  connect_result w = Raise e ->
  forall s, exists evs,
    get_mongo_client w s = (Raise e, mk_state (client_var s) (evs ++ history s))
    /\ (count is_attempt evs <= 1)%nat
    /\ count is_query evs = 0%nat
    /\ Forall (fun ev => forall c, ev <> EvClose c) evs.
Proof.
  unfold connect_result, get_mongo_client, MongoClient, admin_command_ping.
  unfold bind, lift, try_except, emit, ret, print, raise.
  destruct (Py.int _) as [port | e0]; cbn.
  - destruct (mongo_client w _ port) as [ [] | e1 ]; cbn.
    + destruct (ping w _) as [ [] | e2 ]; cbn; [ discriminate | ].
      destruct (isinstance e2 ConnectionFailure); cbn;
        intros H s; injection H as <-.
      * eexists [_; _; _]; cbn; repeat split; auto.
        repeat constructor; discriminate.
      * eexists [_; _]; cbn; repeat split; auto.
        repeat constructor; discriminate.
    + destruct (isinstance e1 ConnectionFailure); cbn;
        intros H s; injection H as <-.
      * eexists [_]; cbn; repeat split; auto.
        repeat constructor; discriminate.
      * exists []; cbn; destruct s; repeat split; auto.
  - intros H s. injection H as <-.
    exists []; cbn; destruct s; repeat split; auto.
Qed.

#[local] Arguments get_mongo_client : simpl never.

(** The response the two [except] clauses build. *)
Definition error_response (e : exn) : Response :=
  mk_response
    (error_body (if isinstance e ConnectionFailure
                 then "Failed to connect to MongoDB" else str_of_exn e))
    500.

Lemma on_exception_eq (e : exn) (s : State) :
  on_exception e s = (Ok (error_response e), s).
Proof.
  unfold on_exception, error_response.
  destruct (isinstance e ConnectionFailure); reflexivity.
Qed.

(** What the handler returns: the view's response, or the one built from
    the exception that left the view. *)
Definition settle (o : outcome Response) : Response :=
  match o with
  | Ok r => r
  | Raise e => error_response e
  end.

(** With the client acquired, a handler runs its view, answers with what the
    view returned (or with the 500 of the exception that left it), and
    closes the client last. *)
Lemma handler_connected (w : World) (c : Client) (view : M Response)
      (s s' : State) (o : outcome Response) :
  connect_result w = Ok c ->
  view (mk_state (Some c) (EvPing c :: EvMongoClient c :: history s)) = (o, s') ->
  client_var s' = Some c ->
  handler w view s = (Ok (settle o), mk_state (Some c) (EvClose c :: history s')).
Proof.
  intros Hc Hv Hs.
  unfold handler, bind, set_client, try_finally, try_except, get_client.
  cbn. rewrite (get_mongo_client_ok w c Hc). cbn. rewrite Hv.
  destruct o as [r | e]; cbn.
  - rewrite Hs. unfold close_mongo_client, emit. rewrite Hs. reflexivity.
  - rewrite on_exception_eq. cbn. rewrite Hs.
    unfold close_mongo_client, emit. rewrite Hs. reflexivity.
Qed.

(** With the acquisition failed, the view never runs and nothing is closed. *)
Lemma handler_not_connected (w : World) (e : exn) (view : M Response) (s : State) :
  connect_result w = Raise e ->
  exists evs,
    handler w view s = (Ok (error_response e), mk_state None (evs ++ history s))
    /\ (count is_attempt evs <= 1)%nat
    /\ count is_query evs = 0%nat
    /\ Forall (fun ev => forall c, ev <> EvClose c) evs.
Proof.
  intros Hc.
  destruct (get_mongo_client_raise w e Hc (mk_state None (history s)))
    as (evs & Hg & Hrest).
  exists evs. split; [ | exact Hrest ].
  unfold handler, bind, set_client, try_finally, try_except, get_client.
  cbn. rewrite Hg. cbn. rewrite on_exception_eq. reflexivity.
Qed.

(** ** What a computation may do to the state *)

(** [emits P m]: running [m] leaves the [client] variable as it was and adds
    to the history only events that satisfy [P]. *)
Definition emits {A : Type} (P : Event -> Prop) (m : M A) : Prop :=
  forall s, exists evs,
    snd (m s) = mk_state (client_var s) (evs ++ history s) /\ Forall P evs.

Section Emits.
Context {A B : Type} (P : Event -> Prop).

Lemma emits_ret (a : A) : emits P (ret a).
Proof. intros [cv h]. exists []. split; [ reflexivity | constructor ]. Qed.

Lemma emits_lift (o : outcome A) : emits P (lift o).
Proof. intros [cv h]. exists []. split; [ reflexivity | constructor ]. Qed.

Lemma emits_raise (e : exn) : emits P (@raise A e).
Proof. intros [cv h]. exists []. split; [ reflexivity | constructor ]. Qed.

Lemma emits_emit (ev : Event) : P ev -> emits P (emit ev).
Proof.
  intros Hev s. exists [ev]. split; [ reflexivity | repeat constructor; exact Hev ].
Qed.

Lemma emits_bind (m : M A) (k : A -> M B) :
  emits P m -> (forall a, emits P (k a)) -> emits P (bind m k).
Proof.
  intros Hm Hk s. unfold bind.
  destruct (Hm s) as (evs1 & H1 & F1).
  destruct (m s) as [[a | e] s1]; cbn in H1 |- *.
  - destruct (Hk a s1) as (evs2 & H2 & F2).
    exists (evs2 ++ evs1)%list. rewrite H2, H1. cbn. rewrite app_assoc.
    split; [ reflexivity | apply Forall_app; split; assumption ].
  - exists evs1. split; assumption.
Qed.

Lemma emits_try_except (body : M A) (h : exn -> M A) :
  emits P body -> (forall e, emits P (h e)) -> emits P (try_except body h).
Proof.
  intros Hm Hh s. unfold try_except.
  destruct (Hm s) as (evs1 & H1 & F1).
  destruct (body s) as [[a | e] s1]; cbn in H1 |- *.
  - exists evs1. split; assumption.
  - destruct (Hh e s1) as (evs2 & H2 & F2).
    exists (evs2 ++ evs1)%list. rewrite H2, H1. cbn. rewrite app_assoc.
    split; [ reflexivity | apply Forall_app; split; assumption ].
Qed.

Lemma emits_for_each (xs : list A) (f : A -> M B) :
  (forall x, emits P (f x)) -> emits P (for_each xs f).
Proof.
  intros Hf. induction xs as [ | x r IH]; cbn.
  - intros [cv h]. exists []. split; [ reflexivity | constructor ].
  - intros s. unfold bind at 1.
    destruct (Hf x s) as (evs1 & H1 & F1).
    destruct (f x s) as [[y | e] s1]; cbn in H1 |- *.
    + unfold bind at 1.
      destruct (IH s1) as (evs2 & H2 & F2).
      destruct (for_each r f s1) as [[ys | e] s2]; cbn in H2 |- *;
        exists (evs2 ++ evs1)%list; rewrite H2, H1; cbn; rewrite app_assoc;
        (split; [ reflexivity | apply Forall_app; split; assumption ]).
    + exists evs1. split; assumption.
Qed.
End Emits.

(** Where the state ends up, read off [emits]. *)
Lemma emits_run {A : Type} (P : Event -> Prop) (m : M A) (s : State) :
  emits P m ->
  exists o evs, m s = (o, mk_state (client_var s) (evs ++ history s)) /\ Forall P evs.
Proof.
  intros H. destruct (H s) as (evs & Hs & F).
  exists (fst (m s)), evs. split; [ | exact F ].
  rewrite <- Hs. destruct (m s); reflexivity.
Qed.

Ltac emits_step :=
  first
    [ apply emits_ret
    | apply emits_lift
    | apply emits_raise
    | apply emits_emit; reflexivity
    | apply emits_for_each; intros
    | apply emits_try_except; [ | intros ]
    | apply emits_bind; [ | intros ]
    | match goal with
      | |- emits _ (if ?b then _ else _) => destruct b
      | |- emits _ (match ?o with Ok _ => _ | Raise _ => _ end) => destruct o
      end ].

(** A view neither opens, pings nor closes a client. *)
Definition not_lifecycle (ev : Event) : Prop := is_lifecycle ev = false.

Lemma problem_item_emits (w : World) (doc : dict) :
  emits not_lifecycle (problem_item w doc).
Proof. unfold problem_item, print. repeat emits_step. Qed.

(** The view a route's handler wraps. *)
Definition view (r : Route) (w : World) (args : Request) : M Response :=
  match r with
  | Document => documents_view w args
  | Record_ => records_view w args
  | User => user_view w args
  | UserGroup => user_groups_view w args
  end.

Lemma serve_handler (r : Route) (w : World) (args : Request) (s : State) :
  serve r w args s = handler w (view r w args) s.
Proof. destruct r; reflexivity. Qed.

Lemma view_emits (r : Route) (w : World) (args : Request) :
  emits not_lifecycle (view r w args).
Proof.
  destruct r;
    unfold view, documents_view, records_view, user_view, user_groups_view,
           respond, db_find, db_find_one;
    repeat first [ apply problem_item_emits | emits_step ].
Qed.

(** The fixed answer to an unreachable database. *)
Definition connect_failed : Response :=
  mk_response (error_body "Failed to connect to MongoDB") 500.



(** The state a view starts from once the client [c] is acquired. *)
Definition connected (c : Client) (s : State) : State :=
  mk_state (Some c) (EvPing c :: EvMongoClient c :: history s).

(** The state a handler ends in when its view added the events [evs]. *)
Definition closed (c : Client) (evs : list Event) (s : State) : State :=
  mk_state (Some c) (EvClose c :: evs ++ history (connected c s)).

Lemma serve_connected (r : Route) (w : World) (args : Request) (c : Client)
      (s : State) (o : outcome Response) (evs : list Event) :
  connect_result w = Ok c ->
  view r w args (connected c s)
  = (o, mk_state (Some c) (evs ++ history (connected c s))) ->
  serve r w args s = (Ok (settle o), closed c evs s).
Proof.
  intros Hc Hv. rewrite serve_handler.
  rewrite (handler_connected w c _ s _ o Hc Hv); reflexivity.
Qed.

(** ** Required parameters *)

(** A parameter is absent when the query string does not name it or gives it
    the empty value: both make [not p] true. *)
Definition absent (args : Request) (k : string) : bool :=
  negb (truthy (args_get args k)).

(** The documented message for the first required parameter a request on a
    route lacks, in the order the route's description lists them. *)
Definition required_message (r : Route) (args : Request) : option string :=
  match r with
  | Document | UserGroup =>
      if absent args "domainId" then Some "domainId is required" else None
  | Record_ =>
      if absent args "domainId" then Some "domainId is required"
      else if absent args "contest" then Some "contest is required"
      else None
  | User => if absent args "_id" then Some "_id is required" else None
  end.

(** C3 (as amended).  On each of the four routes, once the client is
    acquired (and, on the document route, once docType has converted to an
    integer), a request that lacks a required parameter is answered 400 with
    the documented message, and the handler sends no read to the database:
    it opens the client, pings, and closes. *)
Theorem missing_parameter_400
        (r : Route) (w : World) (args : Request) (s : State) (c : Client)
        (msg : string) :
  connect_result w = Ok c ->
  (r = Document ->
   exists n, Py.int (args_get_or args "docType" (PInt 0)) = Ok n) ->
  required_message r args = Some msg ->
  serve r w args s = (Ok (mk_response (error_body msg) 400), closed c [] s).
Proof.
  intros Hc Hint Hmsg.
  apply (serve_connected r w args c s (Ok (mk_response (error_body msg) 400)) [] Hc).
  destruct r; cbn in Hmsg |- *; unfold absent in Hmsg.
  - destruct (Hint eq_refl) as [n Hn].
    unfold documents_view, bind, lift. rewrite Hn.
    destruct (negb (truthy (args_get args "domainId"))); [ | discriminate ].
    injection Hmsg as <-. reflexivity.
  - unfold records_view.
    destruct (negb (truthy (args_get args "domainId"))).
    + injection Hmsg as <-. reflexivity.
    + destruct (negb (truthy (args_get args "contest"))); [ | discriminate ].
      injection Hmsg as <-. reflexivity.
  - unfold user_view.
    destruct (negb (truthy (args_get args "_id"))); [ | discriminate ].
    injection Hmsg as <-. reflexivity.
  - unfold user_groups_view.
    destruct (negb (truthy (args_get args "domainId"))); [ | discriminate ].
    injection Hmsg as <-. reflexivity.
Qed.

Lemma missing_parameter_400_witness :
  serve Document Fixture.up [] Fixture.fresh
  = (Ok (mk_response (error_body "domainId is required") 400),
     closed (mk_client "oj-mongo" 27017) [] Fixture.fresh)
  /\ serve Record_ Fixture.up [("domainId", "system")] Fixture.fresh
     = (Ok (mk_response (error_body "contest is required") 400),
        closed (mk_client "oj-mongo" 27017) [] Fixture.fresh).
Proof.
  split.
  - apply (missing_parameter_400 Document Fixture.up [] Fixture.fresh
             (mk_client "oj-mongo" 27017) "domainId is required").
    + reflexivity.
    + intros _. exists 0. reflexivity.
    + reflexivity.
  - apply (missing_parameter_400 Record_ Fixture.up [("domainId", "system")]
             Fixture.fresh (mk_client "oj-mongo" 27017) "contest is required").
    + reflexivity.
    + discriminate.
    + reflexivity.
Defined.

(** Counterexample to C3 as stated: with the database unreachable, a request on the
    document route that names no domainId is answered 500, not 400. *)
Lemma validation_waits_for_the_database :
  required_message Document [] = Some "domainId is required"
  /\ fst (serve Document Fixture.down [] Fixture.fresh) = Ok connect_failed
  /\ fst (serve Document Fixture.down [] Fixture.fresh)
     <> Ok (mk_response (error_body "domainId is required") 400).
Proof. repeat split; try reflexivity. discriminate. Qed.

(** ** The docType parameter *)

Lemma int_str_raises (v : string) (e : exn) :
  Py.int (PStr v) = Raise e ->
  e = mk_exn ValueError
        ("invalid literal for int() with base 10: " ++ substring 0 200 (repr_str v)).
Proof.
  unfold Py.int. destruct (int_literal _); [ discriminate | ].
  intros H. injection H as <-. reflexivity.
Qed.

(** C10.  On the document route, once the client is acquired, a docType
    that [int] rejects is answered 500 with the message of the ValueError
    the conversion raised, whatever the other parameters are: the conversion
    runs before domainId is looked at, so a missing domainId changes
    nothing, and "Invalid docType" is not the answer. *)
Theorem docType_conversion_failure
        (w : World) (args : Request) (s : State) (c : Client)
        (v : string) (e : exn) :
  connect_result w = Ok c ->
  lookup "docType" args = Some v ->
  Py.int (PStr v) = Raise e ->
  class_of e = ValueError
  /\ str_of_exn e
     = "invalid literal for int() with base 10: " ++ substring 0 200 (repr_str v)
  /\ serve Document w args s
     = (Ok (mk_response (error_body (str_of_exn e)) 500), closed c [] s).
Proof.
  intros Hc Hv He.
  pose proof (int_str_raises v e He) as Heq.
  split; [ subst e; reflexivity | ].
  split; [ subst e; reflexivity | ].
  assert (Hi : isinstance e ConnectionFailure = false) by (subst e; reflexivity).
  replace (mk_response (error_body (str_of_exn e)) 500) with (settle (Raise e))
    by (cbn; unfold error_response; rewrite Hi; reflexivity).
  apply (serve_connected Document w args c s (Raise e) [] Hc).
  cbn. unfold documents_view, bind, lift, args_get_or.
  rewrite Hv, He. reflexivity.
Qed.

Lemma docType_conversion_failure_witness :
  class_of (mk_exn ValueError "invalid literal for int() with base 10: 'abc'")
  = ValueError
  /\ "invalid literal for int() with base 10: 'abc'"
     = "invalid literal for int() with base 10: " ++ substring 0 200 (repr_str "abc")
  /\ serve Document Fixture.up [("docType", "abc")] Fixture.fresh
     = (Ok (mk_response
              (error_body "invalid literal for int() with base 10: 'abc'") 500),
        closed (mk_client "oj-mongo" 27017) [] Fixture.fresh).
Proof.
  apply (docType_conversion_failure Fixture.up [("docType", "abc")] Fixture.fresh
           (mk_client "oj-mongo" 27017) "abc"
           (mk_exn ValueError "invalid literal for int() with base 10: 'abc'"));
    reflexivity.
Defined.

(** C8.  On the document route, once the client is acquired and domainId is
    given, every integer docType other than 10 and 30 is answered 400
    "Invalid docType" without a read; the docType of a request that omits
    the parameter is 0. *)
Theorem invalid_docType
        (w : World) (args : Request) (s : State) (c : Client) (n : Z) :
  connect_result w = Ok c ->
  absent args "domainId" = false ->
  match lookup "docType" args with
  | Some v => Py.int (PStr v) = Ok n
  | None => n = 0
  end ->
  n <> 10 -> n <> 30 ->
  serve Document w args s
  = (Ok (mk_response (error_body "Invalid docType") 400), closed c [] s).
Proof.
  intros Hc Hd Hn H10 H30.
  apply (serve_connected Document w args c s
           (Ok (mk_response (error_body "Invalid docType") 400)) [] Hc).
  cbn. unfold documents_view, bind, lift, args_get_or.
  assert (Hint : Py.int match lookup "docType" args with
                        | Some v => PStr v
                        | None => PInt 0
                        end = Ok n).
  { destruct (lookup "docType" args); [ exact Hn | subst n; reflexivity ]. }
  rewrite Hint. unfold absent in Hd. rewrite Hd.
  destruct (Z.eqb_spec n 30) as [ -> | _ ]; [ contradiction | ].
  destruct (Z.eqb_spec n 10) as [ -> | _ ]; [ contradiction | ].
  reflexivity.
Qed.

Lemma invalid_docType_witness :
  serve Document Fixture.up [("domainId", "system")] Fixture.fresh
  = (Ok (mk_response (error_body "Invalid docType") 400),
     closed (mk_client "oj-mongo" 27017) [] Fixture.fresh).
Proof.
  apply (invalid_docType Fixture.up [("domainId", "system")] Fixture.fresh
           (mk_client "oj-mongo" 27017) 0); first [ reflexivity | discriminate ].
Defined.

(** The same at docType=99. *)
Example invalid_docType_99 :
  fst (serve Document Fixture.up [("domainId", "system"); ("docType", "99")]
         Fixture.fresh)
  = Ok (mk_response (error_body "Invalid docType") 400).
Proof. reflexivity. Qed.

(** ** The record route's contest parameter *)

Definition record_projection : dict :=
  [("_id", one); ("status", one); ("uid", one); ("pid", one); ("score", one);
   ("judgeAt", one)].

(** C7.  On the record route, once the client is acquired and both
    parameters are given: a contest that [ObjectId] rejects is answered 400
    "Invalid contest ObjectId" without a read; a contest that [ObjectId]
    accepts and that no record matches is answered 200 with the empty
    array. *)
Theorem contest_identifier
        (w : World) (args : Request) (s : State) (c : Client) :
  connect_result w = Ok c ->
  absent args "domainId" = false ->
  absent args "contest" = false ->
  match Bson.ObjectId (args_get args "contest") with
  | Raise _ =>
      serve Record_ w args s
      = (Ok (mk_response (error_body "Invalid contest ObjectId") 400),
         closed c [] s)
  | Ok contest_id =>
      let filter := [("domainId", args_get args "domainId");
                     ("contest", PObjectId contest_id)] in
      find w "record" filter record_projection = Ok [] ->
      serve Record_ w args s
      = (Ok (mk_response (PList []) 200),
         closed c [EvFind "record" filter record_projection] s)
  end.
Proof.
  intros Hc Hd Hk. unfold absent in Hd, Hk.
  destruct (Bson.ObjectId (args_get args "contest")) as [contest_id | e] eqn:Ho.
  - intros filter Hf.
    apply (serve_connected Record_ w args c s
             (Ok (mk_response (PList []) 200))
             [EvFind "record" filter record_projection] Hc).
    cbn. unfold records_view. rewrite Hd, Hk, Ho.
    unfold bind, db_find, emit, lift. cbn.
    fold record_projection. fold filter. rewrite Hf. reflexivity.
  - apply (serve_connected Record_ w args c s
             (Ok (mk_response (error_body "Invalid contest ObjectId") 400)) [] Hc).
    cbn. unfold records_view. rewrite Hd, Hk, Ho. reflexivity.
Qed.

Lemma contest_identifier_witness :
  serve Record_ Fixture.up [("domainId", "system"); ("contest", "round-1")]
    Fixture.fresh
  = (Ok (mk_response (error_body "Invalid contest ObjectId") 400),
     closed (mk_client "oj-mongo" 27017) [] Fixture.fresh)
  /\ fst (serve Record_ Fixture.up
            [("domainId", "system"); ("contest", "0123456789abcdef01234567")]
            Fixture.fresh)
     = Ok (mk_response (PList []) 200).
Proof.
  split.
  - apply (contest_identifier Fixture.up
             [("domainId", "system"); ("contest", "round-1")] Fixture.fresh
             (mk_client "oj-mongo" 27017)); reflexivity.
  - rewrite (contest_identifier Fixture.up
               [("domainId", "system"); ("contest", "0123456789abcdef01234567")]
               Fixture.fresh (mk_client "oj-mongo" 27017));
      reflexivity.
Defined.

(** ** The user route *)

Definition user_query (n : Z) : Event :=
  EvFindOne "user" [("_id", PInt n)] [("uname", one)].

(** What the user route does with a non-empty [_id], once the client is
    acquired: 400 when [isdigit] is false; otherwise the value is converted,
    and the answer is 404 when no user has that key, 200 with the name when
    one has, and the 500 of the conversion error when [int] rejects what
    [isdigit] accepted. *)
Lemma get_user_cases (w : World) (args : Request) (s : State) (c : Client) :
  connect_result w = Ok c ->
  absent args "_id" = false ->
  forall v, lookup "_id" args = Some v ->
  (isdigit v = false ->
   serve User w args s
   = (Ok (mk_response (error_body "_id must be an integer") 400), closed c [] s))
  /\ (forall n, isdigit v = true -> Py.int (PStr v) = Ok n ->
      (find_one w "user" [("_id", PInt n)] [("uname", one)] = Ok None ->
       serve User w args s
       = (Ok (mk_response (error_body "User not found") 404),
          closed c [user_query n] s))
      /\ (forall user uname,
            find_one w "user" [("_id", PInt n)] [("uname", one)] = Ok (Some user) ->
            dict_get "uname" user = Some (PStr uname) ->
            serve User w args s
            = (Ok (mk_response (PDict [("uname", PStr uname)]) 200),
               closed c [user_query n] s)))
  /\ (forall e, isdigit v = true -> Py.int (PStr v) = Raise e ->
      serve User w args s
      = (Ok (mk_response (error_body (str_of_exn e)) 500), closed c [] s)).
Proof.
  intros Hc Ha v Hv. unfold absent in Ha.
  assert (Hid : args_get args "_id" = PStr v)
    by (unfold args_get, args_get_or; rewrite Hv; reflexivity).
  split; [ | split ].
  - intros Hd.
    apply (serve_connected User w args c s
             (Ok (mk_response (error_body "_id must be an integer") 400)) [] Hc).
    cbn. unfold user_view. rewrite Ha, Hid. unfold bind, lift. cbn.
    rewrite Hd. reflexivity.
  - intros n Hd Hn. split.
    + intros Hf.
      apply (serve_connected User w args c s
               (Ok (mk_response (error_body "User not found") 404))
               [user_query n] Hc).
      cbn. unfold user_view. rewrite Ha, Hid.
      unfold bind, lift, db_find_one, emit. cbn - [Py.int].
      rewrite Hd, Hn. cbn. rewrite Hf. reflexivity.
    + intros user uname Hf Hu.
      apply (serve_connected User w args c s
               (Ok (mk_response (PDict [("uname", PStr uname)]) 200))
               [user_query n] Hc).
      cbn. unfold user_view. rewrite Ha, Hid.
      unfold bind, lift, db_find_one, emit. cbn - [Py.int].
      rewrite Hd, Hn. cbn. rewrite Hf. cbn.
      destruct user as [ | kv user' ]; [ discriminate | ].
      cbn [truthy]. unfold subscript, getitem. rewrite Hu. reflexivity.
  - intros e Hd He.
    pose proof (int_str_raises v e He) as Heq.
    assert (Hi : isinstance e ConnectionFailure = false) by (subst e; reflexivity).
    replace (mk_response (error_body (str_of_exn e)) 500) with (settle (Raise e))
      by (cbn; unfold error_response; rewrite Hi; reflexivity).
    apply (serve_connected User w args c s (Raise e) [] Hc).
    cbn. unfold user_view. rewrite Ha, Hid.
    unfold bind, lift. cbn - [Py.int]. rewrite Hd. cbn - [Py.int].
    rewrite He. reflexivity.
Qed.

(** A character is a decimal digit when it has a decimal value. *)
Definition is_decimal_char (c : ascii) : bool :=
  match decimal_value c with
  | Some _ => true
  | None => false
  end.

(** [str.isdecimal()]: the strings made of decimal digits alone. *)
Definition isdecimal (v : string) : bool :=
  match list_ascii_of_string v with
  | [] => false
  | cs => forallb is_decimal_char cs
  end.

Lemma decimal_char_range (c : ascii) :
  is_decimal_char c = true -> 48 <= code c <= 57.
Proof.
  unfold is_decimal_char, decimal_value.
  destruct (Z.leb_spec 48 (code c)); destruct (Z.leb_spec (code c) 57);
    cbn; intros; first [ lia | discriminate ].
Qed.

Lemma decimal_char_value (c : ascii) :
  is_decimal_char c = true -> decimal_value c = Some (code c - 48).
Proof.
  unfold is_decimal_char, decimal_value.
  destruct ((48 <=? code c) && (code c <=? 57)); [ reflexivity | discriminate ].
Qed.

Lemma decimal_char_not_space (c : ascii) :
  is_decimal_char c = true -> is_int_space c = false.
Proof.
  intros H. apply decimal_char_range in H. unfold is_int_space.
  repeat match goal with
         | |- context [ ?a <=? ?b ] => destruct (Z.leb_spec a b)
         | |- context [ ?a =? ?b ] => destruct (Z.eqb_spec a b)
         end; cbn; first [ reflexivity | lia ].
Qed.

Lemma lstrip_decimal (cs : list ascii) :
  forallb is_decimal_char cs = true -> lstrip cs = cs.
Proof.
  destruct cs as [ | c r ]; [ reflexivity | ].
  cbn. intros H. apply andb_true_iff in H as [Hc _].
  rewrite (decimal_char_not_space c Hc). reflexivity.
Qed.

Lemma forallb_rev {A : Type} (p : A -> bool) (l : list A) :
  forallb p (rev l) = forallb p l.
Proof.
  induction l as [ | x r IH ]; [ reflexivity | ].
  cbn. rewrite forallb_app, IH. cbn. rewrite andb_true_r. apply andb_comm.
Qed.

Lemma strip_decimal (cs : list ascii) :
  forallb is_decimal_char cs = true -> strip cs = cs.
Proof.
  intros H. unfold strip. rewrite (lstrip_decimal cs H).
  rewrite lstrip_decimal by (rewrite forallb_rev; exact H).
  apply rev_involutive.
Qed.

Lemma int_digits_decimal (cs : list ascii) :
  forallb is_decimal_char cs = true ->
  forall acc, 0 <= acc -> exists n, int_digits acc cs = Some n /\ 0 <= n.
Proof.
  induction cs as [ | c r IH ]; intros H acc Hacc.
  - exists acc. split; [ reflexivity | exact Hacc ].
  - cbn in H. apply andb_true_iff in H as [Hc Hr].
    cbn [int_digits]. rewrite (decimal_char_value c Hc).
    apply decimal_char_range in Hc.
    apply (IH Hr). lia.
Qed.

(** On the strings of decimal digits, [isdigit] and [int] agree: the check
    passes and the conversion gives a natural number. *)
Lemma decimal_string_converts (v : string) :
  isdecimal v = true ->
  isdigit v = true /\ exists n, Py.int (PStr v) = Ok n /\ 0 <= n.
Proof.
  unfold isdecimal, isdigit, Py.int, int_literal.
  destruct (list_ascii_of_string v) as [ | c r ] eqn:Hv; [ discriminate | ].
  intros H. split.
  - apply forallb_forall. intros x Hx.
    rewrite forallb_forall in H. specialize (H x Hx).
    unfold is_digit_char. unfold is_decimal_char in H.
    destruct (decimal_value x); [ reflexivity | discriminate ].
  - rewrite (strip_decimal (c :: r) H).
    cbn in H. apply andb_true_iff in H as [Hc Hr].
    pose proof (decimal_char_range c Hc) as Hrange.
    destruct (Z.eqb_spec (code c) 43) as [ E | _ ]; [ lia | ].
    destruct (Z.eqb_spec (code c) 45) as [ E | _ ]; [ lia | ].
    unfold int_unsigned. rewrite (decimal_char_value c Hc).
    destruct (int_digits_decimal r Hr (code c - 48)) as (n & Hn & Hpos); [ lia | ].
    exists n. rewrite Hn. split; [ reflexivity | exact Hpos ].
Qed.

(** C6 at its failing input.  Superscript two is a digit for [isdigit] and
    is not a decimal digit, so [int] rejects it after the check has let it
    through: the request [_id=U+00B2] is answered 500 with the conversion
    error, not 400 "_id must be an integer". *)
Theorem superscript_id_passes_the_digit_check :
  isdigit Fixture.superscript_two = true
  /\ isdecimal Fixture.superscript_two = false
  /\ Py.int (PStr Fixture.superscript_two)
     = Raise (mk_exn ValueError
                ("invalid literal for int() with base 10: '"
                 ++ Fixture.superscript_two ++ "'"))
  /\ serve User Fixture.up [("_id", Fixture.superscript_two)] Fixture.fresh
     = (Ok (mk_response
              (error_body ("invalid literal for int() with base 10: '"
                           ++ Fixture.superscript_two ++ "'")) 500),
        closed (mk_client "oj-mongo" 27017) [] Fixture.fresh)
  /\ fst (serve User Fixture.up [("_id", Fixture.superscript_two)] Fixture.fresh)
     <> Ok (mk_response (error_body "_id must be an integer") 400).
Proof. repeat split; try reflexivity. discriminate. Qed.

(** The three documented answers of the user route, on the strings of
    decimal digits and on the strings [isdigit] rejects. *)
Lemma get_user_decimal (w : World) (args : Request) (s : State) (c : Client)
      (v : string) :
  connect_result w = Ok c ->
  absent args "_id" = false ->
  lookup "_id" args = Some v ->
  (isdigit v = false ->
   serve User w args s
   = (Ok (mk_response (error_body "_id must be an integer") 400), closed c [] s))
  /\ (isdecimal v = true ->
      exists n,
        Py.int (PStr v) = Ok n
        /\ (find_one w "user" [("_id", PInt n)] [("uname", one)] = Ok None ->
            serve User w args s
            = (Ok (mk_response (error_body "User not found") 404),
               closed c [user_query n] s))
        /\ (forall user uname,
              find_one w "user" [("_id", PInt n)] [("uname", one)]
              = Ok (Some user) ->
              dict_get "uname" user = Some (PStr uname) ->
              serve User w args s
              = (Ok (mk_response (PDict [("uname", PStr uname)]) 200),
                 closed c [user_query n] s))).
Proof.
  intros Hc Ha Hv.
  destruct (get_user_cases w args s c Hc Ha v Hv) as (Hbad & Hgood & _).
  split; [ exact Hbad | ].
  intros Hdec.
  destruct (decimal_string_converts v Hdec) as (Hd & n & Hn & _).
  exists n. split; [ exact Hn | ].
  exact (Hgood n Hd Hn).
Qed.

Example get_user_examples :
  fst (serve User Fixture.up [("_id", "42")] Fixture.fresh)
  = Ok (mk_response (PDict [("uname", PStr "alice")]) 200)
  /\ fst (serve User Fixture.up [("_id", "43")] Fixture.fresh)
     = Ok (mk_response (error_body "User not found") 404)
  /\ fst (serve User Fixture.up [("_id", "abc")] Fixture.fresh)
     = Ok (mk_response (error_body "_id must be an integer") 400).
Proof. repeat split. Qed.

(** ** The document route, docType 30 *)

Definition contest_query (domain_id : pyval) : Event :=
  EvFind "document" [("domainId", domain_id); ("docType", PInt 30)]
    [("_id", one); ("docId", one); ("title", one); ("beginAt", one); ("pids", one)].

(** A contest document as the data model has it: an identifier, a title
    that is a string, and, when present, a start time and a list of problem
    numbers the JSON provider can write. *)
Definition contest_schema (doc : dict) : bool :=
  match dict_get "_id" doc, dict_get "title" doc with
  | Some _, Some (PStr _) =>
      serializable (get doc "beginAt")
      && match dict_get "pids" doc with
         | None => true
         | Some (PList l) => forallb serializable l
         | Some _ => false
         end
  | _, _ => false
  end.

(** The item the route returns for a contest document: three strings, the
    stored start time or None, and a list. *)
Definition contest_item_ok (doc : dict) (item : pyval) : Prop :=
  exists (id_text docId_text title : string) (begin_at : pyval) (pids : list pyval),
    item = PDict [("_id", PStr id_text); ("docId", PStr docId_text);
                  ("title", PStr title); ("beginAt", begin_at);
                  ("pids", PList pids)]
    /\ (exists id, dict_get "_id" doc = Some id /\ id_text = str id)
    /\ docId_text = str (get doc "docId")
    /\ dict_get "title" doc = Some (PStr title)
    /\ match dict_get "beginAt" doc with
       | Some t => begin_at = t
       | None => begin_at = PNone
       end
    /\ match dict_get "pids" doc with
       | Some stored => stored = PList pids
       | None => pids = []
       end.

Lemma contest_item_schema (doc : dict) :
  contest_schema doc = true ->
  exists item,
    contest_item doc = Ok item /\ contest_item_ok doc item
    /\ serializable item = true.
Proof.
  unfold contest_schema, contest_item, contest_item_ok, getitem, get, get_or, obind.
  destruct (dict_get "_id" doc) as [ id | ]; [ | discriminate ].
  destruct (dict_get "title" doc) as [ [ | | | title | | | | ] | ];
    try discriminate.
  intros H. apply andb_true_iff in H as [Hb Hp].
  eexists. split; [ reflexivity | ]. split.
  - exists (str id), (str match dict_get "docId" doc with
                          | Some v => v
                          | None => PNone
                          end), title.
    destruct (dict_get "beginAt" doc) as [ t | ];
      destruct (dict_get "pids" doc) as [ [ | | | | l | | | ] | ];
      try discriminate;
      eexists; eexists; (split; [ reflexivity | ]);
      (split; [ exists id; split; reflexivity | ]);
      repeat split; reflexivity.
  - cbn. rewrite Hb. cbn.
    destruct (dict_get "pids" doc) as [ [ | | | | l | | | ] | ];
      try discriminate; cbn; [ rewrite Hp | ]; reflexivity.
Qed.

Lemma contest_items_schema (docs : list dict) :
  forallb contest_schema docs = true ->
  exists items,
    ofor_each docs contest_item = Ok items
    /\ Forall2 contest_item_ok docs items
    /\ forallb serializable items = true.
Proof.
  induction docs as [ | doc r IH ]; intros H.
  - exists []. repeat split; constructor.
  - cbn in H. apply andb_true_iff in H as [Hd Hr].
    destruct (contest_item_schema doc Hd) as (item & Hi & Hok & Hs).
    destruct (IH Hr) as (items & Hf & Hall & Hss).
    exists (item :: items). cbn [ofor_each]. rewrite Hi. cbn. rewrite Hf. cbn.
    repeat split.
    + constructor; assumption.
    + rewrite Hs, Hss. reflexivity.
Qed.

(** C5.  On the document route with docType=30, once the client is acquired
    and domainId is given, for documents of the data model: the answer is
    200 with one item per matched document, in order, and every item has
    [_id] and [docId] as the strings [str] makes of the stored values,
    [title] as the stored string, [beginAt] as the stored value or None when
    the document has none, and [pids] as the stored list or the empty list
    when the document has none. *)
Theorem contest_documents
        (w : World) (args : Request) (s : State) (c : Client)
        (docs : list dict) :
  connect_result w = Ok c ->
  absent args "domainId" = false ->
  Py.int (args_get_or args "docType" (PInt 0)) = Ok 30 ->
  find w "document" [("domainId", args_get args "domainId"); ("docType", PInt 30)]
    [("_id", one); ("docId", one); ("title", one); ("beginAt", one); ("pids", one)]
  = Ok docs ->
  forallb contest_schema docs = true ->
  exists items,
    serve Document w args s
    = (Ok (mk_response (PList items) 200),
       closed c [contest_query (args_get args "domainId")] s)
    /\ Forall2 contest_item_ok docs items.
Proof.
  intros Hc Hd Ht Hf Hs. unfold absent in Hd.
  destruct (contest_items_schema docs Hs) as (items & Hi & Hall & Hser).
  exists items. split; [ | exact Hall ].
  apply (serve_connected Document w args c s
           (Ok (mk_response (PList items) 200))
           [contest_query (args_get args "domainId")] Hc).
  cbn [view]. unfold documents_view, bind, lift. rewrite Ht, Hd.
  cbn [Z.eqb Pos.eqb]. unfold db_find, bind, emit, lift. cbn [fst snd].
  rewrite Hf, Hi. unfold respond, jsonify, bind, lift, ret.
  cbn [serializable]. rewrite Hser. reflexivity.
Qed.

Lemma contest_documents_witness :
  exists items,
    serve Document Fixture.up [("domainId", "system"); ("docType", "30")]
      Fixture.fresh
    = (Ok (mk_response (PList items) 200),
       closed (mk_client "oj-mongo" 27017)
         [contest_query (PStr "system")] Fixture.fresh)
    /\ Forall2 contest_item_ok
         (Fixture.select Fixture.database "document"
            [("domainId", PStr "system"); ("docType", PInt 30)]
            [("_id", one); ("docId", one); ("title", one); ("beginAt", one);
             ("pids", one)])
         items.
Proof.
  apply (contest_documents Fixture.up
           [("domainId", "system"); ("docType", "30")] Fixture.fresh
           (mk_client "oj-mongo" 27017)); reflexivity.
Defined.

(** ** The document route, docType 10 *)

Definition problem_query (domain_id : pyval) : Event :=
  EvFind "document" [("domainId", domain_id); ("docType", PInt 10)]
    [("_id", one); ("docId", one); ("title", one); ("pid", one); ("config", one)].

(** The subtasks list of a parsed config, in the description's words: the
    list under the key [subtasks], and the empty list when the config is
    empty or has no such key. *)
Definition subtasks_of (config_data : pyval) : option (list pyval) :=
  match config_data with
  | PNone => Some []
  | PDict d =>
      match dict_get "subtasks" d with
      | None => Some []
      | Some (PList l) => Some l
      | Some _ => None
      end
  | _ => None
  end.

(** The score of one entry: its [score], and 0 when it has none. *)
Definition entry_score (entry : pyval) : option Z :=
  match entry with
  | PDict e =>
      match dict_get "score" e with
      | None => Some 0
      | Some (PInt n) => Some n
      | Some _ => None
      end
  | _ => None
  end.

Fixpoint entry_scores (entries : list pyval) : option (list Z) :=
  match entries with
  | [] => Some []
  | entry :: r =>
      match entry_score entry, entry_scores r with
      | Some n, Some ns => Some (n :: ns)
      | _, _ => None
      end
  end.

(** The scores of a config's subtasks, when the config is a mapping (or
    empty) whose subtasks are mappings with integer scores. *)
Definition config_scores (config_data : pyval) : option (list Z) :=
  match subtasks_of config_data with
  | Some entries => entry_scores entries
  | None => None
  end.

Definition sum (ns : list Z) : Z := fold_right Z.add 0 ns.

(** A problem document the loop can shape: it has the five projected
    fields, the JSON provider can write the three it copies, and its config
    either parses to a config with scores or raises a YAML error. *)
Definition problem_ready (w : World) (doc : dict) : bool :=
  match dict_get "_id" doc, dict_get "docId" doc, dict_get "title" doc,
        dict_get "pid" doc, dict_get "config" doc with
  | Some _, Some docId, Some title, Some pid, Some config =>
      serializable docId && serializable title && serializable pid
      && match safe_load w config with
         | Ok config_data =>
             match config_scores config_data with
             | Some _ => true
             | None => false
             end
         | Raise e => isinstance e YAMLError
         end
  | _, _, _, _, _ => false
  end.

(** The item of a document whose config parsed, with its score. *)
Definition scored_item (doc : dict) (score : Z) : pyval :=
  PDict [("_id", PStr (str (get doc "_id"))); ("docId", get doc "docId");
         ("title", get doc "title"); ("pid", get doc "pid");
         ("score", PInt score)].

(** The item of a document whose config did not parse. *)
Definition unparsed_item (doc : dict) : pyval :=
  PDict [("_id", PStr (str (get doc "_id"))); ("docId", get doc "docId");
         ("title", get doc "title"); ("pid", get doc "pid");
         ("score", PInt 0); ("error", PStr "Invalid config format")].

(** What the description says the item of a document is. *)
Definition item_ok (w : World) (doc : dict) (item : pyval) : Prop :=
  match safe_load w (get doc "config") with
  | Ok config_data =>
      exists ns, config_scores config_data = Some ns
                 /\ item = scored_item doc (sum ns)
  | Raise _ => item = unparsed_item doc
  end.

Lemma add_scores_sum (entries : list pyval) (ns : list Z) :
  entry_scores entries = Some ns ->
  forall acc, add_scores (PInt acc) entries = Ok (PInt (acc + sum ns)).
Proof.
  revert ns. induction entries as [ | entry r IH ]; intros ns H acc.
  - injection H as <-. cbn. rewrite Z.add_0_r. reflexivity.
  - cbn [entry_scores] in H.
    destruct (entry_score entry) as [ n | ] eqn:He; [ | discriminate ].
    destruct (entry_scores r) as [ ms | ]; [ | discriminate ].
    injection H as <-.
    unfold entry_score in He.
    destruct entry as [ | | | | | e | | ]; try discriminate.
    cbn [add_scores call_get obind]. unfold get_or.
    destruct (dict_get "score" e) as [ [ | | m | | | | | ] | ];
      try discriminate; injection He as ->;
      cbn [iadd as_int obind]; rewrite (IH ms eq_refl); unfold sum;
      cbn [fold_right];
      f_equal; f_equal; lia.
Qed.

(** Lines 79-82 compute the sum of the subtasks' scores. *)
Lemma total_score_sum (config_data : pyval) (ns : list Z) :
  config_scores config_data = Some ns ->
  total_score config_data = Ok (PInt (sum ns)).
Proof.
  unfold config_scores, subtasks_of, total_score.
  destruct config_data as [ | | | | | d | | ]; try discriminate.
  - intros H. injection H as <-. reflexivity.
  - destruct d as [ | kv d' ]; [ intros H; injection H as <-; reflexivity | ].
    cbn [truthy contains obind subscript]. unfold getitem.
    destruct (dict_get "subtasks" (kv :: d')) as [ [ | | | | l | | | ] | ];
      try discriminate.
    + intros H. cbn [obind iter]. rewrite (add_scores_sum l ns H 0). reflexivity.
    + intros H. injection H as <-. reflexivity.
Qed.

Definition is_print (ev : Event) : Prop :=
  match ev with
  | EvPrint _ => True
  | _ => False
  end.

Lemma problem_item_ready (w : World) (doc : dict) :
  problem_ready w doc = true ->
  exists item,
    item_ok w doc item /\ serializable item = true
    /\ forall s, exists evs,
         problem_item w doc s
         = (Ok item, mk_state (client_var s) (evs ++ history s))
         /\ Forall is_print evs.
Proof.
  unfold problem_ready, item_ok, problem_item, scored_item, unparsed_item.
  unfold get, get_or.
  unfold try_except, bind, lift, getitem, print, emit, ret, raise.
  destruct (dict_get "_id" doc) as [ id | ]; [ | discriminate ].
  destruct (dict_get "docId" doc) as [ docId | ]; [ | discriminate ].
  destruct (dict_get "title" doc) as [ title | ]; [ | discriminate ].
  destruct (dict_get "pid" doc) as [ pid | ]; [ | discriminate ].
  destruct (dict_get "config" doc) as [ config | ]; [ | discriminate ].
  intros H. apply andb_true_iff in H as [H Hload].
  apply andb_true_iff in H as [H Hpid].
  apply andb_true_iff in H as [HdocId Htitle].
  destruct (safe_load w config) as [ config_data | e ].
  - destruct (config_scores config_data) as [ ns | ] eqn:Hns; [ | discriminate ].
    exists (PDict [("_id", PStr (str id)); ("docId", docId); ("title", title);
                   ("pid", pid); ("score", PInt (sum ns))]).
    split; [ exists ns; split; reflexivity | ].
    split; [ cbn; rewrite HdocId, Htitle, Hpid; reflexivity | ].
    intros s. exists []. rewrite (total_score_sum config_data ns Hns).
    destruct s. split; [ reflexivity | constructor ].
  - exists (PDict [("_id", PStr (str id)); ("docId", docId); ("title", title);
                   ("pid", pid); ("score", PInt 0);
                   ("error", PStr "Invalid config format")]).
    split; [ reflexivity | ].
    split; [ cbn; rewrite HdocId, Htitle, Hpid; reflexivity | ].
    intros s. rewrite Hload. eexists [_]. split; [ reflexivity | ].
    repeat constructor.
Qed.

(** The loop shapes every document, in order, and only prints. *)
Lemma problem_items_ready (w : World) (docs : list dict) :
  forallb (problem_ready w) docs = true ->
  exists items,
    Forall2 (item_ok w) docs items /\ forallb serializable items = true
    /\ forall s, exists evs,
         for_each docs (problem_item w) s
         = (Ok items, mk_state (client_var s) (evs ++ history s))
         /\ Forall is_print evs.
Proof.
  induction docs as [ | doc r IH ]; intros H.
  - exists []. repeat split; try constructor.
    intros [cv h]. exists []. split; [ reflexivity | constructor ].
  - cbn in H. apply andb_true_iff in H as [Hd Hr].
    destruct (problem_item_ready w doc Hd) as (item & Hok & Hs & Hrun).
    destruct (IH Hr) as (items & Hall & Hss & Hruns).
    exists (item :: items). split; [ constructor; assumption | ].
    split; [ cbn; rewrite Hs, Hss; reflexivity | ].
    intros s. cbn [for_each]. unfold bind at 1.
    destruct (Hrun s) as (evs1 & E1 & F1). rewrite E1.
    unfold bind at 1.
    destruct (Hruns (mk_state (client_var s) (evs1 ++ history s)))
      as (evs2 & E2 & F2).
    rewrite E2. exists (evs2 ++ evs1)%list. cbn. rewrite app_assoc.
    split; [ reflexivity | apply Forall_app; split; assumption ].
Qed.

(** The answer of the docType 10 branch on documents the loop can shape. *)
Lemma problem_documents_ready
      (w : World) (args : Request) (s : State) (c : Client) (docs : list dict) :
  connect_result w = Ok c ->
  absent args "domainId" = false ->
  Py.int (args_get_or args "docType" (PInt 0)) = Ok 10 ->
  find w "document" [("domainId", args_get args "domainId"); ("docType", PInt 10)]
    [("_id", one); ("docId", one); ("title", one); ("pid", one); ("config", one)]
  = Ok docs ->
  forallb (problem_ready w) docs = true ->
  exists items prints,
    serve Document w args s
    = (Ok (mk_response (PList items) 200),
       closed c (prints ++ [problem_query (args_get args "domainId")]) s)
    /\ Forall2 (item_ok w) docs items
    /\ Forall is_print prints.
Proof.
  intros Hc Hd Ht Hf Hs. unfold absent in Hd.
  destruct (problem_items_ready w docs Hs) as (items & Hall & Hser & Hrun).
  destruct (Hrun (mk_state (Some c)
                    (problem_query (args_get args "domainId")
                     :: history (connected c s)))) as (prints & Hp & Fp).
  exists items, prints. split; [ | split; assumption ].
  apply (serve_connected Document w args c s
           (Ok (mk_response (PList items) 200))
           (prints ++ [problem_query (args_get args "domainId")]) Hc).
  cbn [view]. unfold documents_view, bind at 1, lift at 1. rewrite Ht, Hd.
  cbn [Z.eqb Pos.eqb negb]. unfold db_find, bind, emit, lift. cbn [fst snd].
  rewrite Hf.
  unfold problem_query, connected in Hp |- *.
  cbn [history client_var] in Hp |- *. rewrite Hp.
  unfold respond, jsonify, bind, lift, ret.
  cbn [serializable]. rewrite Hser. rewrite <- app_assoc. reflexivity.
Qed.

(** The scores of the docType 10 loop where the config has them.  On the
    document route with docType=10, once the client is acquired and domainId
    is given, on documents the loop can shape: the answer is 200 with one
    item per matched document, in order, and the item of every document
    whose config parsed is [_id] as a string, [docId], [title] and [pid] as
    stored, and [score] the sum of the scores of the entries of the config's
    subtasks list, an entry without a score counting 0 and a config without
    a subtasks key (or an empty config) having no entries. *)
Theorem problem_scores
        (w : World) (args : Request) (s : State) (c : Client) (docs : list dict) :
  connect_result w = Ok c ->
  absent args "domainId" = false ->
  Py.int (args_get_or args "docType" (PInt 0)) = Ok 10 ->
  find w "document" [("domainId", args_get args "domainId"); ("docType", PInt 10)]
    [("_id", one); ("docId", one); ("title", one); ("pid", one); ("config", one)]
  = Ok docs ->
  forallb (problem_ready w) docs = true ->
  exists items prints,
    serve Document w args s
    = (Ok (mk_response (PList items) 200),
       closed c (prints ++ [problem_query (args_get args "domainId")]) s)
    /\ Forall2
         (fun doc item =>
            forall config_data,
              safe_load w (get doc "config") = Ok config_data ->
              exists ns, config_scores config_data = Some ns
                         /\ item = scored_item doc (sum ns))
         docs items.
Proof.
  intros Hc Hd Ht Hf Hs.
  destruct (problem_documents_ready w args s c docs Hc Hd Ht Hf Hs)
    as (items & prints & Hrun & Hall & _).
  exists items, prints. split; [ exact Hrun | ].
  eapply Forall2_impl; [ | exact Hall ].
  intros doc item Hok config_data Hload. unfold item_ok in Hok.
  rewrite Hload in Hok. exact Hok.
Qed.

Definition problems_of_system : list dict :=
  Fixture.select Fixture.database "document"
    [("domainId", PStr "system"); ("docType", PInt 10)]
    [("_id", one); ("docId", one); ("title", one); ("pid", one); ("config", one)].

Lemma problem_scores_witness :
  exists items prints,
    serve Document Fixture.up [("domainId", "system"); ("docType", "10")]
      Fixture.fresh
    = (Ok (mk_response (PList items) 200),
       closed (mk_client "oj-mongo" 27017)
         (prints ++ [problem_query (PStr "system")]) Fixture.fresh)
    /\ Forall2
         (fun doc item =>
            forall config_data,
              safe_load Fixture.up (get doc "config") = Ok config_data ->
              exists ns, config_scores config_data = Some ns
                         /\ item = scored_item doc (sum ns))
         problems_of_system items.
Proof.
  apply (problem_scores Fixture.up
           [("domainId", "system"); ("docType", "10")] Fixture.fresh
           (mk_client "oj-mongo" 27017)); reflexivity.
Defined.

(** The scores the loop gives the documents of the fixture. *)
Example problem_scores_of_system :
  fst (serve Document Fixture.up [("domainId", "system"); ("docType", "10")]
         Fixture.fresh)
  = Ok (mk_response
          (PList (map (fun p => match p with
                                | (doc, Some n) => scored_item doc n
                                | (doc, None) => unparsed_item doc
                                end)
                    (combine problems_of_system
                       [Some 100; None; Some 50; Some 0])))
          200).
Proof. reflexivity. Qed.

(** C1 at its failing input.  A config whose subtasks key is null is not
    read as a config without subtasks: the guard of line 80 lets it through,
    the loop iterates over None, and the TypeError, which is no YAML error,
    leaves the loop.  The one matched document gets no item with score 0:
    the request is answered 500. *)
Lemma null_subtasks_abort_the_request :
  safe_load Fixture.up (PStr "subtasks:
") = Ok (PDict [("subtasks", PNone)])
  /\ total_score (PDict [("subtasks", PNone)])
     = Raise (mk_exn TypeError "'NoneType' object is not iterable")
  /\ List.length (Fixture.select Fixture.database "document"
                    [("domainId", PStr "drafts"); ("docType", PInt 10)]
                    [("_id", one); ("docId", one); ("title", one); ("pid", one);
                     ("config", one)]) = 1%nat
  /\ fst (serve Document Fixture.up [("domainId", "drafts"); ("docType", "10")]
            Fixture.fresh)
     = Ok (mk_response (error_body "'NoneType' object is not iterable") 500).
Proof. repeat split. Qed.

(** C2.  On the document route with docType=10, once the client is acquired
    and domainId is given, on documents the loop can shape: a config that
    raises a YAML error does not end the request.  The answer is 200 with
    one item per matched document, in order, and the item of every document
    whose config failed to parse has the same fields with [score] 0 and
    [error] "Invalid config format". *)
Theorem unparsable_configs
        (w : World) (args : Request) (s : State) (c : Client) (docs : list dict) :
  connect_result w = Ok c ->
  absent args "domainId" = false ->
  Py.int (args_get_or args "docType" (PInt 0)) = Ok 10 ->
  find w "document" [("domainId", args_get args "domainId"); ("docType", PInt 10)]
    [("_id", one); ("docId", one); ("title", one); ("pid", one); ("config", one)]
  = Ok docs ->
  forallb (problem_ready w) docs = true ->
  exists items prints,
    serve Document w args s
    = (Ok (mk_response (PList items) 200),
       closed c (prints ++ [problem_query (args_get args "domainId")]) s)
    /\ List.length items = List.length docs
    /\ Forall2
         (fun doc item =>
            forall e,
              safe_load w (get doc "config") = Raise e ->
              isinstance e YAMLError = true /\ item = unparsed_item doc)
         docs items.
Proof.
  intros Hc Hd Ht Hf Hs.
  destruct (problem_documents_ready w args s c docs Hc Hd Ht Hf Hs)
    as (items & prints & Hrun & Hall & _).
  exists items, prints. split; [ exact Hrun | ].
  split; [ symmetry; exact (Forall2_length Hall) | ].
  rewrite forallb_forall in Hs.
  clear Hrun Hf. induction Hall as [ | doc item docs' items' Hok _ IH ].
  - constructor.
  - constructor.
    + intros e Hload. unfold item_ok in Hok. rewrite Hload in Hok.
      split; [ | exact Hok ].
      specialize (Hs doc (or_introl eq_refl)).
      unfold problem_ready, get, get_or in Hs, Hload.
      destruct (dict_get "_id" doc); [ | discriminate ].
      destruct (dict_get "docId" doc); [ | discriminate ].
      destruct (dict_get "title" doc); [ | discriminate ].
      destruct (dict_get "pid" doc); [ | discriminate ].
      destruct (dict_get "config" doc); [ | discriminate ].
      rewrite Hload in Hs.
      apply andb_true_iff in Hs as [_ Hs]. exact Hs.
    + apply IH. intros x Hx. apply Hs. right. exact Hx.
Qed.

Lemma unparsable_configs_witness :
  exists items prints,
    serve Document Fixture.up [("domainId", "system"); ("docType", "10")]
      Fixture.fresh
    = (Ok (mk_response (PList items) 200),
       closed (mk_client "oj-mongo" 27017)
         (prints ++ [problem_query (PStr "system")]) Fixture.fresh)
    /\ List.length items = List.length problems_of_system
    /\ Forall2
         (fun doc item =>
            forall e,
              safe_load Fixture.up (get doc "config") = Raise e ->
              isinstance e YAMLError = true /\ item = unparsed_item doc)
         problems_of_system items.
Proof.
  apply (unparsable_configs Fixture.up
           [("domainId", "system"); ("docType", "10")] Fixture.fresh
           (mk_client "oj-mongo" 27017)); reflexivity.
Defined.

(** ** Acquisition errors that are not connection failures *)

Definition misconfigured : World :=
  Fixture.world true [("MONGO_PORT", "abc")] Fixture.database Fixture.yaml_texts.

(** An error raised while acquiring the client that is not a connection
    failure: with MONGO_PORT set to a text that is not a number the driver
    is never called, and the answer is the 500 of the conversion error. *)
Example acquisition_fails_before_connecting :
  connect_result misconfigured
  = Raise (mk_exn ValueError "invalid literal for int() with base 10: 'abc'")
  /\ serve UserGroup misconfigured [("domainId", "system")] Fixture.fresh
     = (Ok (mk_response
              (error_body "invalid literal for int() with base 10: 'abc'") 500),
        Fixture.fresh)
  /\ fst (serve UserGroup misconfigured [("domainId", "system")] Fixture.fresh)
     <> Ok connect_failed.
Proof. repeat split. discriminate. Qed.

(** With the server down the answer is the fixed one, after one attempt;
    the client object built for the attempt is dropped without a close. *)
Example unreachable_server :
  serve UserGroup Fixture.down [("domainId", "system")] Fixture.fresh
  = (Ok connect_failed,
     mk_state None
       [EvPrint ("Failed to connect to MongoDB: "
                 ++ str_of_exn Fixture.timeout);
        EvPing (mk_client "oj-mongo" 27017);
        EvMongoClient (mk_client "oj-mongo" 27017)]).
Proof. reflexivity. Qed.

(** ** Determinism *)

(** Two worlds that answer alike: the same environment, the same outcome of
    every connection attempt, the same result (order included) for every
    read, and the same YAML loader. *)
Definition same_world (w1 w2 : World) : Prop :=
  (forall k, environ w1 k = environ w2 k)
  /\ (forall host port, mongo_client w1 host port = mongo_client w2 host port)
  /\ (forall c, ping w1 c = ping w2 c)
  /\ (forall coll filter projection,
        find w1 coll filter projection = find w2 coll filter projection)
  /\ (forall coll filter projection,
        find_one w1 coll filter projection = find_one w2 coll filter projection)
  /\ (forall v, safe_load w1 v = safe_load w2 v).

(** Two computations that cannot be told apart by their result: from states
    that agree on the [client] variable, whatever their histories, they give
    the same outcome and leave the variable the same. *)
Definition sim {A : Type} (m1 m2 : M A) : Prop :=
  forall s1 s2, client_var s1 = client_var s2 ->
    fst (m1 s1) = fst (m2 s2)
    /\ client_var (snd (m1 s1)) = client_var (snd (m2 s2)).

Section Sim.
Context {A B : Type}.

Lemma sim_ret (a : A) : sim (ret a) (ret a).
Proof. intros s1 s2 H. split; [ reflexivity | exact H ]. Qed.

Lemma sim_lift (o1 o2 : outcome A) : o1 = o2 -> sim (lift o1) (lift o2).
Proof. intros -> s1 s2 H. split; [ reflexivity | exact H ]. Qed.

Lemma sim_raise (e : exn) : sim (@raise A e) (raise e).
Proof. intros s1 s2 H. split; [ reflexivity | exact H ]. Qed.

Lemma sim_bind (m1 m2 : M A) (k1 k2 : A -> M B) :
  sim m1 m2 -> (forall a, sim (k1 a) (k2 a)) -> sim (bind m1 k1) (bind m2 k2).
Proof.
  intros Hm Hk s1 s2 H. unfold bind.
  destruct (Hm s1 s2 H) as [Ho Hs].
  destruct (m1 s1) as [o1 t1]; destruct (m2 s2) as [o2 t2].
  cbn in Ho, Hs. subst o2.
  destruct o1 as [ a | e ]; [ apply Hk; exact Hs | ].
  split; [ reflexivity | exact Hs ].
Qed.

Lemma sim_try_except (m1 m2 : M A) (h1 h2 : exn -> M A) :
  sim m1 m2 -> (forall e, sim (h1 e) (h2 e)) ->
  sim (try_except m1 h1) (try_except m2 h2).
Proof.
  intros Hm Hh s1 s2 H. unfold try_except.
  destruct (Hm s1 s2 H) as [Ho Hs].
  destruct (m1 s1) as [o1 t1]; destruct (m2 s2) as [o2 t2].
  cbn in Ho, Hs. subst o2.
  destruct o1 as [ a | e ]; [ | apply Hh; exact Hs ].
  split; [ reflexivity | exact Hs ].
Qed.

Lemma sim_try_finally (m1 m2 : M A) (f1 f2 : M unit) :
  sim m1 m2 -> sim f1 f2 -> sim (try_finally m1 f1) (try_finally m2 f2).
Proof.
  intros Hm Hf s1 s2 H. unfold try_finally.
  destruct (Hm s1 s2 H) as [Ho Hs].
  destruct (m1 s1) as [o1 t1]; destruct (m2 s2) as [o2 t2].
  cbn in Ho, Hs. subst o2.
  destruct (Hf t1 t2 Hs) as [Ho' Hs'].
  destruct (f1 t1) as [p1 u1]; destruct (f2 t2) as [p2 u2].
  cbn in Ho', Hs'. subst p2.
  destruct p1; split; first [ reflexivity | exact Hs' ].
Qed.

End Sim.

Lemma sim_for_each {A B : Type} (xs : list A) (f1 f2 : A -> M B) :
  (forall x, sim (f1 x) (f2 x)) -> sim (for_each xs f1) (for_each xs f2).
Proof.
  intros Hf. induction xs as [ | x r IH ]; cbn [for_each].
  - apply sim_ret.
  - apply sim_bind; [ apply Hf | intros y ].
    apply sim_bind; [ exact IH | intros ys ].
    apply sim_ret.
Qed.

Lemma sim_emit (ev1 ev2 : Event) : sim (emit ev1) (emit ev2).
Proof. intros s1 s2 H. split; [ reflexivity | exact H ]. Qed.

Lemma sim_set_client (c : option Client) : sim (set_client c) (set_client c).
Proof. intros s1 s2 H. split; reflexivity. Qed.

Lemma sim_get_client : sim get_client get_client.
Proof. intros s1 s2 H. split; [ cbn; rewrite H; reflexivity | exact H ]. Qed.

Ltac sim_step :=
  first
    [ apply sim_ret
    | apply sim_raise
    | apply sim_emit
    | apply sim_set_client
    | apply sim_get_client
    | apply sim_lift; first [ reflexivity | solve [ auto ] ]
    | apply sim_for_each; intros
    | apply sim_try_finally
    | apply sim_try_except; [ | intros ]
    | apply sim_bind; [ | intros ]
    | match goal with
      | |- sim (if ?b then _ else _) _ => destruct b
      | |- sim (match ?o with Ok _ => _ | Raise _ => _ end) _ => destruct o
      | |- sim (match ?o with Some _ => _ | None => _ end) _ => destruct o
      end ].

Section SameWorld.
Variables w1 w2 : World.
Hypothesis same : same_world w1 w2.

Lemma environ_get_same (k default : string) :
  environ_get w1 k default = environ_get w2 k default.
Proof.
  unfold environ_get. destruct same as (He & _). rewrite He. reflexivity.
Qed.

Lemma get_mongo_client_same : sim (get_mongo_client w1) (get_mongo_client w2).
Proof.
  destruct same as (_ & Hm & Hp & _).
  unfold get_mongo_client, MongoClient, admin_command_ping, print.
  rewrite !environ_get_same.
  repeat sim_step.
Qed.

Lemma problem_item_same (doc : dict) :
  sim (problem_item w1 doc) (problem_item w2 doc).
Proof.
  destruct same as (_ & _ & _ & _ & _ & Hy).
  unfold problem_item, print. repeat sim_step.
Qed.

Lemma view_same (r : Route) (args : Request) :
  sim (view r w1 args) (view r w2 args).
Proof.
  pose proof problem_item_same as Hitem.
  destruct same as (_ & _ & _ & Hf & Hf1 & _).
  destruct r;
    unfold view, documents_view, records_view, user_view, user_groups_view,
           respond, db_find, db_find_one;
    repeat first [ apply Hitem | sim_step ].
Qed.

Lemma handler_same (v1 v2 : M Response) :
  sim v1 v2 -> sim (handler w1 v1) (handler w2 v2).
Proof.
  intros Hv. pose proof get_mongo_client_same as Hg.
  unfold handler.
  apply (sim_bind (set_client None) (set_client None));
    [ apply sim_set_client | intros _ ].
  apply sim_try_finally.
  - apply sim_try_except.
    + apply (sim_bind (get_mongo_client w1) (get_mongo_client w2));
        [ exact Hg | intros c ].
      apply (sim_bind (set_client (Some c)) (set_client (Some c)));
        [ apply sim_set_client | intros _ ].
      exact Hv.
    + intros e. unfold on_exception, respond.
      destruct (isinstance e ConnectionFailure); repeat sim_step.
  - apply (sim_bind get_client get_client); [ apply sim_get_client | ].
    intros [ c | ]; unfold close_mongo_client; sim_step.
Qed.
End SameWorld.

(** A handler's answer does not depend on what was served before: on every
    route, requests with the same parameters, served in worlds that answer
    alike and from any two states, get the same status and the same body. *)
Theorem responses_are_deterministic
        (r : Route) (w1 w2 : World) (args : Request) (s1 s2 : State) :
  same_world w1 w2 ->
  fst (serve r w1 args s1) = fst (serve r w2 args s2).
Proof.
  intros Hw. rewrite !serve_handler.
  assert (Hsim : sim (handler w1 (view r w1 args)) (handler w2 (view r w2 args))).
  { apply handler_same; [ exact Hw | apply view_same; exact Hw ]. }
  assert (Hreset : forall w v s,
             handler w v s = handler w v (mk_state None (history s)))
    by reflexivity.
  rewrite (Hreset w1), (Hreset w2).
  apply Hsim. reflexivity.
Qed.

Definition busy : State :=
  mk_state (Some (mk_client "elsewhere" 1))
    [EvClose (mk_client "elsewhere" 1); EvPrint "an earlier request"].

Lemma responses_are_deterministic_witness :
  fst (serve Document Fixture.up [("domainId", "system"); ("docType", "10")]
         Fixture.fresh)
  = fst (serve Document Fixture.up [("domainId", "system"); ("docType", "10")]
           busy).
Proof.
  apply (responses_are_deterministic Document Fixture.up Fixture.up
           [("domainId", "system"); ("docType", "10")] Fixture.fresh busy).
  repeat split.
Defined.

(** * Further properties of app.py *)

(** ** [get_mongo_client] (lines 13-26) *)

(** The outcome of the three steps of [get_mongo_client], in order: the port
    conversion, the client construction and the ping. *)
Definition mongo_host_of (w : World) : string := environ_get w "MONGO_HOST" "oj-mongo".

Definition mongo_port_of (w : World) : outcome Z :=
  Py.int (PStr (environ_get w "MONGO_PORT" "27017")).

Lemma get_mongo_client_steps (w : World) (s : State) :
  match mongo_port_of w with
  | Raise e => get_mongo_client w s = (Raise e, s)
  | Ok port =>
      let c := mk_client (mongo_host_of w) port in
      match mongo_client w (mongo_host_of w) port with
      | Raise e =>
          get_mongo_client w s
          = (Raise e,
             mk_state (client_var s)
               (if isinstance e ConnectionFailure
                then EvPrint ("Failed to connect to MongoDB: " ++ str_of_exn e)
                     :: history s
                else history s))
      | Ok _ =>
          match ping w c with
          | Raise e =>
              get_mongo_client w s
              = (Raise e,
                 mk_state (client_var s)
                   (if isinstance e ConnectionFailure
                    then EvPrint ("Failed to connect to MongoDB: " ++ str_of_exn e)
                         :: EvPing c :: EvMongoClient c :: history s
                    else EvPing c :: EvMongoClient c :: history s))
          | Ok _ =>
              get_mongo_client w s
              = (Ok c, mk_state (client_var s)
                         (EvPing c :: EvMongoClient c :: history s))
          end
      end
  end.
Proof.
  unfold mongo_port_of, mongo_host_of, get_mongo_client, MongoClient,
         admin_command_ping.
  unfold bind, lift, try_except, emit, ret, print, raise.
  destruct (Py.int _) as [port | e0]; cbn; [ | destruct s; reflexivity ].
  destruct (mongo_client w _ port) as [ [] | e1 ]; cbn.
  - destruct (ping w _) as [ [] | e2 ]; cbn; [ reflexivity | ].
    destruct (isinstance e2 ConnectionFailure); reflexivity.
  - destruct (isinstance e1 ConnectionFailure); destruct s; reflexivity.
Qed.

(** X1.  Whenever [get_mongo_client] returns a client, that client was built
    for the host MONGO_HOST (oj-mongo when unset) and the port int(MONGO_PORT)
    (27017 when unset), the server answered its ping, and the function did
    nothing else: one construction, one ping, no print. *)
Theorem get_mongo_client_returns
        (w : World) (s s' : State) (c : Client) :
  get_mongo_client w s = (Ok c, s') ->
  client_host c = environ_get w "MONGO_HOST" "oj-mongo"
  /\ Py.int (PStr (environ_get w "MONGO_PORT" "27017")) = Ok (client_port c)
  /\ mongo_client w (client_host c) (client_port c) = Ok tt
  /\ ping w c = Ok tt
  /\ s' = mk_state (client_var s) (EvPing c :: EvMongoClient c :: history s).
Proof.
  intros H. pose proof (get_mongo_client_steps w s) as Hs.
  unfold mongo_port_of, mongo_host_of in Hs.
  destruct (Py.int _) as [port | e0]; [ | congruence ].
  cbn zeta in Hs.
  destruct (mongo_client w _ port) as [ [] | e1 ] eqn:Hm; [ | congruence ].
  destruct (ping w _) as [ [] | e2 ] eqn:Hp; [ | congruence ].
  rewrite Hs in H. injection H as <- <-. cbn.
  repeat split; assumption.
Qed.

Lemma get_mongo_client_returns_witness :
  client_host (mk_client "oj-mongo" 27017)
  = environ_get Fixture.up "MONGO_HOST" "oj-mongo"
  /\ Py.int (PStr (environ_get Fixture.up "MONGO_PORT" "27017"))
     = Ok (client_port (mk_client "oj-mongo" 27017))
  /\ mongo_client Fixture.up (client_host (mk_client "oj-mongo" 27017))
       (client_port (mk_client "oj-mongo" 27017)) = Ok tt
  /\ ping Fixture.up (mk_client "oj-mongo" 27017) = Ok tt
  /\ mk_state None [EvPing (mk_client "oj-mongo" 27017);
                    EvMongoClient (mk_client "oj-mongo" 27017)]
     = mk_state (client_var Fixture.fresh)
         (EvPing (mk_client "oj-mongo" 27017)
          :: EvMongoClient (mk_client "oj-mongo" 27017)
          :: history Fixture.fresh).
Proof.
  apply (get_mongo_client_returns Fixture.up Fixture.fresh
           (mk_state None [EvPing (mk_client "oj-mongo" 27017);
                           EvMongoClient (mk_client "oj-mongo" 27017)])
           (mk_client "oj-mongo" 27017)).
  reflexivity.
Defined.

(** X2.  [get_mongo_client] passes on the exception it met and replaces
    none: what it raises is what the port conversion, the construction or
    the ping raised.  It prints its line exactly when that exception is a
    connection failure, and then the line ends with the exception's text. *)
Theorem get_mongo_client_raises
        (w : World) (s s' : State) (e : exn) :
  get_mongo_client w s = (Raise e, s') ->
  (mongo_port_of w = Raise e
   \/ exists port,
        mongo_port_of w = Ok port
        /\ (mongo_client w (mongo_host_of w) port = Raise e
            \/ ping w (mk_client (mongo_host_of w) port) = Raise e))
  /\ client_var s' = client_var s
  /\ exists evs,
       history s'
       = List.app
           (if isinstance e ConnectionFailure
            then EvPrint ("Failed to connect to MongoDB: " ++ str_of_exn e) :: evs
            else evs)
           (history s)
       /\ Forall (fun ev => forall line, ev <> EvPrint line) evs.
Proof.
  intros H. pose proof (get_mongo_client_steps w s) as Hs.
  destruct (mongo_port_of w) as [port | e0] eqn:Hport.
  - cbn zeta in Hs.
    destruct (mongo_client w _ port) as [ [] | e1 ] eqn:Hm.
    + destruct (ping w _) as [ [] | e2 ] eqn:Hp; [ congruence | ].
      rewrite Hs in H. injection H as <- <-. cbn.
      split; [ right; exists port; split; [ reflexivity | right; exact Hp ] | ].
      split; [ reflexivity | ].
      exists [EvPing (mk_client (mongo_host_of w) port);
              EvMongoClient (mk_client (mongo_host_of w) port)].
      split; [ destruct (isinstance e2 ConnectionFailure); reflexivity | ].
      repeat constructor; discriminate.
    + rewrite Hs in H. injection H as <- <-. cbn.
      split; [ right; exists port; split; [ reflexivity | left; exact Hm ] | ].
      split; [ reflexivity | ].
      exists []. split; [ destruct (isinstance e1 ConnectionFailure); reflexivity | ].
      constructor.
  - rewrite Hs in H. injection H as <- <-.
    split; [ left; reflexivity | ]. split; [ reflexivity | ].
    exists []. split; [ | constructor ].
    unfold mongo_port_of in Hport. apply int_str_raises in Hport.
    subst e0. reflexivity.
Qed.

Lemma get_mongo_client_raises_witness :
  (mongo_port_of Fixture.down = Raise Fixture.timeout
   \/ exists port,
        mongo_port_of Fixture.down = Ok port
        /\ (mongo_client Fixture.down (mongo_host_of Fixture.down) port
            = Raise Fixture.timeout
            \/ ping Fixture.down (mk_client (mongo_host_of Fixture.down) port)
               = Raise Fixture.timeout))
  /\ client_var (snd (get_mongo_client Fixture.down Fixture.fresh))
     = client_var Fixture.fresh
  /\ exists evs,
       history (snd (get_mongo_client Fixture.down Fixture.fresh))
       = List.app
           (if isinstance Fixture.timeout ConnectionFailure
            then EvPrint ("Failed to connect to MongoDB: "
                          ++ str_of_exn Fixture.timeout) :: evs
            else evs)
           (history Fixture.fresh)
       /\ Forall (fun ev => forall line, ev <> EvPrint line) evs.
Proof.
  apply (get_mongo_client_raises Fixture.down Fixture.fresh
           (snd (get_mongo_client Fixture.down Fixture.fresh)) Fixture.timeout).
  reflexivity.
Defined.

(** ** What every handler answers (lines 36-223) *)

(** [answers P m]: whenever [m] returns a response, the response satisfies
    [P]. *)
Definition answers (P : Response -> Prop) (m : M Response) : Prop :=
  forall s r, fst (m s) = Ok r -> P r.

Lemma answers_bind {A : Type} (P : Response -> Prop) (m : M A)
      (k : A -> M Response) :
  (forall a, answers P (k a)) -> answers P (bind m k).
Proof.
  intros Hk s r. unfold bind.
  destruct (m s) as [[a | e] s1]; [ apply Hk | discriminate ].
Qed.

Lemma answers_respond (P : Response -> Prop) (v : pyval) (code : Z) :
  P (mk_response v code) -> answers P (respond v code).
Proof.
  intros HP s r. unfold respond, jsonify, bind, lift, ret.
  destruct (serializable v); cbn; [ | discriminate ].
  intros H. injection H as <-. exact HP.
Qed.

(** An error answer: one of the given statuses, and a body that is an
    object with the single key [error]. *)
Definition is_error (codes : list Z) (r : Response) : Prop :=
  In (status r) codes /\ exists msg, body r = error_body msg.

(** The answers of a route: an array (for the user route, an object with
    the single key [uname]) with status 200, or an error. *)
Definition envelope (route : Route) (r : Response) : Prop :=
  match route with
  | User =>
      (status r = 200 /\ exists uname, body r = PDict [("uname", uname)])
      \/ is_error [400; 404; 500] r
  | _ =>
      (status r = 200 /\ exists items, body r = PList items)
      \/ is_error [400; 500] r
  end.

Ltac answers_step :=
  first
    [ apply answers_respond
    | apply answers_bind; intros
    | match goal with
      | |- answers _ (if ?b then _ else _) => destruct b
      | |- answers _ (match ?o with Ok _ => _ | Raise _ => _ end) => destruct o
      end ].

Lemma view_answers (r : Route) (w : World) (args : Request) :
  answers (envelope r) (view r w args).
Proof.
  destruct r; cbn [view envelope];
    unfold documents_view, records_view, user_view, user_groups_view;
    repeat answers_step;
    first
      [ left; split; [ reflexivity | eexists; reflexivity ]
      | right; split; [ cbn; tauto | eexists; reflexivity ] ].
Qed.

Lemma error_response_is_error (e : exn) (codes : list Z) :
  In 500 codes -> is_error codes (error_response e).
Proof.
  intros H. split; [ exact H | ]. cbn. eexists. reflexivity.
Qed.

(** X3.  Every handler always answers: whatever the request, the world and
    what came before, no exception leaves a handler.  The answer is 200
    with an array (on the user route, with an object holding only [uname]),
    or an object holding only [error] with status 400 or 500 (on the user
    route, 400, 404 or 500). *)
Theorem handlers_always_answer
        (r : Route) (w : World) (args : Request) (s : State) :
  exists resp, fst (serve r w args s) = Ok resp /\ envelope r resp.
Proof.
  rewrite serve_handler.
  assert (Herr : forall e, envelope r (error_response e)).
  { intros e. destruct r; right; apply error_response_is_error; cbn; tauto. }
  destruct (connect_result w) as [c | e] eqn:Hc.
  - destruct (emits_run not_lifecycle (view r w args)
                (mk_state (Some c) (EvPing c :: EvMongoClient c :: history s))
                (view_emits r w args)) as (o & evs & Hv & _).
    rewrite (handler_connected w c _ s _ o Hc Hv eq_refl).
    exists (settle o). split; [ reflexivity | ].
    destruct o as [r0 | e]; [ | apply Herr ].
    apply (view_answers r w args
             (mk_state (Some c) (EvPing c :: EvMongoClient c :: history s))).
    rewrite Hv. reflexivity.
  - destruct (handler_not_connected w e (view r w args) s Hc) as (evs & Hh & _).
    rewrite Hh. exists (error_response e). split; [ reflexivity | apply Herr ].
Qed.

(** ** How many reads a handler sends *)

(** An event that is neither part of the connection life cycle nor a read:
    a print. *)
Definition silent (ev : Event) : Prop :=
  is_lifecycle ev = false /\ is_query ev = false.

(** [reads n m]: [m] leaves the [client] variable alone and adds at most [n]
    reads to the history, and no life-cycle event. *)
Definition reads {A : Type} (n : nat) (m : M A) : Prop :=
  forall s, exists evs,
    snd (m s) = mk_state (client_var s) (evs ++ history s)
    /\ Forall not_lifecycle evs /\ (count is_query evs <= n)%nat.

Lemma count_app (p : Event -> bool) (a b : list Event) :
  count p (a ++ b) = (count p a + count p b)%nat.
Proof. unfold count. rewrite filter_app, length_app. reflexivity. Qed.

Lemma count_silent (evs : list Event) :
  Forall silent evs -> count is_query evs = 0%nat /\ Forall not_lifecycle evs.
Proof.
  induction 1 as [ | ev r [Hl Hq] _ [IHc IHl] ]; [ split; [ reflexivity | constructor ] | ].
  split; [ | constructor; assumption ].
  unfold count in IHc |- *. cbn. rewrite Hq. exact IHc.
Qed.

Lemma reads_silent {A : Type} (n : nat) (m : M A) : emits silent m -> reads n m.
Proof.
  intros H s. destruct (H s) as (evs & Hs & F).
  destruct (count_silent evs F) as [Hc Hl].
  exists evs. repeat split; [ exact Hs | exact Hl | rewrite Hc; apply Nat.le_0_l ].
Qed.

Lemma reads_after_silent {A B : Type} (n : nat) (m : M A) (k : A -> M B) :
  emits silent m -> (forall a, reads n (k a)) -> reads n (bind m k).
Proof.
  intros Hm Hk s. unfold bind.
  destruct (Hm s) as (evs1 & H1 & F1).
  destruct (count_silent evs1 F1) as [Hc1 Hl1].
  destruct (m s) as [[a | e] s1]; cbn in H1 |- *.
  - destruct (Hk a s1) as (evs2 & H2 & Hl2 & Hc2).
    exists (evs2 ++ evs1)%list. rewrite H2, H1. cbn. rewrite app_assoc.
    split; [ reflexivity | ].
    split; [ apply Forall_app; split; assumption | ].
    rewrite count_app, Hc1, Nat.add_0_r. exact Hc2.
  - exists evs1. repeat split; [ exact H1 | exact Hl1 | ].
    rewrite Hc1. apply Nat.le_0_l.
Qed.

(** One read, then nothing but prints. *)
Lemma reads_one {A B : Type} (q : Event) (o : outcome A) (k : A -> M B) :
  is_lifecycle q = false ->
  (forall a, emits silent (k a)) ->
  reads 1 (bind (bind (emit q) (fun _ => lift o)) k).
Proof.
  intros Hq Hk s. unfold bind, emit, lift. cbn.
  destruct o as [a | e]; cbn.
  - destruct (Hk a (mk_state (client_var s) (q :: history s))) as (evs & Hs & F).
    destruct (count_silent evs F) as [Hc Hl].
    exists (evs ++ [q])%list. rewrite Hs. cbn. rewrite <- app_assoc.
    split; [ reflexivity | ].
    split; [ apply Forall_app; split; [ exact Hl | repeat constructor; exact Hq ] | ].
    rewrite count_app, Hc. unfold count. cbn. destruct (is_query q); cbn; lia.
  - exists [q]. split; [ reflexivity | ].
    split; [ repeat constructor; exact Hq | ].
    unfold count. cbn. destruct (is_query q); cbn; lia.
Qed.

Ltac silent_step :=
  first
    [ apply emits_ret
    | apply emits_lift
    | apply emits_raise
    | apply emits_emit; split; reflexivity
    | apply emits_for_each; intros
    | apply emits_try_except; [ | intros ]
    | apply emits_bind; [ | intros ]
    | match goal with
      | |- emits _ (if ?b then _ else _) => destruct b
      | |- emits _ (match ?o with Ok _ => _ | Raise _ => _ end) => destruct o
      end ].

Lemma problem_item_silent (w : World) (doc : dict) :
  emits silent (problem_item w doc).
Proof. unfold problem_item, print. repeat silent_step. Qed.

Lemma respond_silent (v : pyval) (code : Z) : emits silent (respond v code).
Proof. unfold respond. repeat silent_step. Qed.

Lemma view_reads (r : Route) (w : World) (args : Request) :
  reads 1 (view r w args).
Proof.
  destruct r; cbn [view].
  - unfold documents_view.
    apply reads_after_silent; [ apply emits_lift | intros doc_type ].
    destruct (negb (truthy (args_get args "domainId")));
      [ apply reads_silent, respond_silent | ].
    destruct (doc_type =? 30).
    { unfold db_find. apply reads_one; [ reflexivity | intros docs ].
      apply emits_bind; [ apply emits_lift | intros; apply respond_silent ]. }
    destruct (doc_type =? 10); [ | apply reads_silent, respond_silent ].
    unfold db_find. apply reads_one; [ reflexivity | intros docs ].
    apply emits_bind; [ | intros; apply respond_silent ].
    apply emits_for_each. intros doc. apply problem_item_silent.
  - unfold records_view.
    destruct (negb (truthy (args_get args "domainId")));
      [ apply reads_silent, respond_silent | ].
    destruct (negb (truthy (args_get args "contest")));
      [ apply reads_silent, respond_silent | ].
    destruct (Bson.ObjectId (args_get args "contest"));
      [ | apply reads_silent, respond_silent ].
    unfold db_find. apply reads_one; [ reflexivity | intros docs ].
    apply emits_bind; [ apply emits_lift | intros; apply respond_silent ].
  - unfold user_view.
    destruct (negb (truthy (args_get args "_id")));
      [ apply reads_silent, respond_silent | ].
    apply reads_after_silent; [ apply emits_lift | intros digits ].
    destruct (negb digits); [ apply reads_silent, respond_silent | ].
    apply reads_after_silent; [ apply emits_lift | intros n ].
    unfold db_find_one.
    change (reads 1
              (bind (bind (bind (emit (user_query n))
                                (fun _ => lift (find_one w "user" [("_id", PInt n)]
                                                  [("uname", one)])))
                          (fun r => ret match r with
                                        | Some d => PDict d
                                        | None => PNone
                                        end))
                    (fun user =>
                       if truthy user
                       then bind (lift (subscript user "uname"))
                              (fun uname => respond (PDict [("uname", uname)]) 200)
                       else respond (error_body "User not found") 404))).
    intros s. unfold bind at 1 2.
    destruct (reads_one (user_query n)
                (find_one w "user" [("_id", PInt n)] [("uname", one)])
                (fun r => bind (ret match r with
                                    | Some d => PDict d
                                    | None => PNone
                                    end)
                            (fun user =>
                               if truthy user
                               then bind (lift (subscript user "uname"))
                                      (fun uname =>
                                         respond (PDict [("uname", uname)]) 200)
                               else respond (error_body "User not found") 404))
                eq_refl) with (s := s) as (evs & Hs & Hrest).
    { intros r. apply emits_bind; [ apply emits_ret | intros user ].
      destruct (truthy user); [ | apply respond_silent ].
      apply emits_bind; [ apply emits_lift | intros; apply respond_silent ]. }
    exists evs. split; [ | exact Hrest ].
    rewrite <- Hs. unfold bind, emit, lift, ret. cbn.
    destruct (find_one w "user" [("_id", PInt n)] [("uname", one)]);
      reflexivity.
  - unfold user_groups_view.
    destruct (negb (truthy (args_get args "domainId")));
      [ apply reads_silent, respond_silent | ].
    unfold db_find. apply reads_one; [ reflexivity | intros docs ].
    apply emits_bind; [ apply emits_lift | intros; apply respond_silent ].
Qed.

(** X4.  A handler sends at most one read to the database per request,
    whatever the request and the world, and opens at most one client: the
    events it adds to the history hold at most one find or find_one and at
    most one client construction. *)
Theorem at_most_one_read
        (r : Route) (w : World) (args : Request) (s : State) :
  exists evs : list Event,
    history (snd (serve r w args s)) = List.app evs (history s)
    /\ (count is_query evs <= 1)%nat
    /\ (count is_attempt evs <= 1)%nat.
Proof.
  rewrite serve_handler.
  destruct (connect_result w) as [c | e] eqn:Hc.
  - destruct (view_reads r w args
                (mk_state (Some c) (EvPing c :: EvMongoClient c :: history s)))
      as (evs & Hs & Hl & Hq).
    assert (Hv : view r w args
                   (mk_state (Some c) (EvPing c :: EvMongoClient c :: history s))
                 = (fst (view r w args
                           (mk_state (Some c)
                              (EvPing c :: EvMongoClient c :: history s))),
                    mk_state (Some c)
                      (evs ++ EvPing c :: EvMongoClient c :: history s))).
    { cbn [client_var history] in Hs. rewrite <- Hs. apply surjective_pairing. }
    rewrite (handler_connected w c _ s _ _ Hc Hv eq_refl). cbn [snd history].
    exists (EvClose c :: evs ++ [EvPing c; EvMongoClient c])%list.
    split; [ cbn; rewrite <- app_assoc; reflexivity | ].
    assert (Hn : count is_attempt evs = 0%nat).
    { clear Hs Hv Hq. induction Hl as [ | ev l Hev _ IH ]; [ reflexivity | ].
      unfold count in IH |- *. cbn.
      destruct ev; cbn in Hev |- *; first [ discriminate | exact IH ]. }
    split.
    + change (count is_query (EvClose c :: evs ++ [EvPing c; EvMongoClient c]))
        with (count is_query (evs ++ [EvPing c; EvMongoClient c])).
      rewrite count_app. unfold count at 2. cbn. lia.
    + change (count is_attempt (EvClose c :: evs ++ [EvPing c; EvMongoClient c]))
        with (count is_attempt (evs ++ [EvPing c; EvMongoClient c])).
      rewrite count_app, Hn. unfold count. cbn. lia.
  - destruct (handler_not_connected w e (view r w args) s Hc)
      as (evs & Hh & Hn & Hq & _).
    rewrite Hh. exists evs. cbn. repeat split; [ rewrite Hq | ]; lia.
Qed.

(** ** The record route's items (lines 138-150) *)

Definition record_query (domain_id : pyval) (contest_id : list Byte.byte) : Event :=
  EvFind "record" [("domainId", domain_id); ("contest", PObjectId contest_id)]
    record_projection.

(** The fields [record_item] reads with [record[...]], in the order it reads
    them. *)
Definition record_fields : list string := ["_id"; "status"; "uid"; "pid"; "score"].

(** The first of the given fields a document lacks. *)
Definition missing (fields : list string) (doc : dict) : option string :=
  List.find (fun k => match dict_get k doc with
                      | Some _ => false
                      | None => true
                      end) fields.

(** The first missing field of the first document that lacks one. *)
Fixpoint first_missing (fields : list string) (docs : list dict) : option string :=
  match docs with
  | [] => None
  | doc :: rest =>
      match missing fields doc with
      | Some k => Some k
      | None => first_missing fields rest
      end
  end.

(** A record the JSON provider can write: the four copied fields and, when
    present, [judgeAt]. *)
Definition record_writable (record : dict) : bool :=
  serializable (get record "status") && serializable (get record "uid")
  && serializable (get record "pid") && serializable (get record "score")
  && serializable (get record "judgeAt").

(** The item of a record: [_id] as a string, four fields as stored, and
    [judgeAt] as stored or None. *)
Definition record_item_ok (record : dict) (item : pyval) : Prop :=
  exists id status uid pid score,
    dict_get "_id" record = Some id
    /\ dict_get "status" record = Some status
    /\ dict_get "uid" record = Some uid
    /\ dict_get "pid" record = Some pid
    /\ dict_get "score" record = Some score
    /\ item = PDict [("_id", PStr (str id)); ("status", status); ("uid", uid);
                     ("pid", pid); ("score", score);
                     ("judgeAt", match dict_get "judgeAt" record with
                                 | Some t => t
                                 | None => PNone
                                 end)].

Lemma record_item_complete (record : dict) :
  missing record_fields record = None ->
  exists item, record_item record = Ok item /\ record_item_ok record item
               /\ serializable item = record_writable record.
Proof.
  unfold missing, record_fields, record_item, record_item_ok, record_writable.
  unfold getitem, get, get_or, obind. cbn [List.find].
  destruct (dict_get "_id" record) as [ id | ]; [ | discriminate ].
  destruct (dict_get "status" record) as [ status | ]; [ | discriminate ].
  destruct (dict_get "uid" record) as [ uid | ]; [ | discriminate ].
  destruct (dict_get "pid" record) as [ pid | ]; [ | discriminate ].
  destruct (dict_get "score" record) as [ score | ]; [ | discriminate ].
  intros _. eexists. split; [ reflexivity | ]. split.
  - exists id, status, uid, pid, score. repeat split.
  - cbn. rewrite andb_true_r, !andb_assoc. reflexivity.
Qed.

Lemma record_item_missing (record : dict) (k : string) :
  missing record_fields record = Some k ->
  record_item record = Raise (mk_exn KeyError (repr_str k)).
Proof.
  unfold missing, record_fields, record_item, getitem, obind. cbn [List.find].
  destruct (dict_get "_id" record); [ | intros H; injection H as <-; reflexivity ].
  destruct (dict_get "status" record); [ | intros H; injection H as <-; reflexivity ].
  destruct (dict_get "uid" record); [ | intros H; injection H as <-; reflexivity ].
  destruct (dict_get "pid" record); [ | intros H; injection H as <-; reflexivity ].
  destruct (dict_get "score" record); [ | intros H; injection H as <-; reflexivity ].
  discriminate.
Qed.

Lemma record_items_complete (records : list dict) :
  first_missing record_fields records = None ->
  exists items,
    ofor_each records record_item = Ok items
    /\ Forall2 record_item_ok records items
    /\ forallb serializable items = forallb record_writable records.
Proof.
  induction records as [ | record r IH ]; intros H.
  - exists []. repeat split; constructor.
  - cbn [first_missing] in H.
    destruct (missing record_fields record) eqn:Hm; [ discriminate | ].
    destruct (record_item_complete record Hm) as (item & Hi & Hok & Hs).
    destruct (IH H) as (items & Hf & Hall & Hss).
    exists (item :: items). cbn [ofor_each]. rewrite Hi. cbn. rewrite Hf. cbn.
    repeat split; [ constructor; assumption | rewrite Hs, Hss; reflexivity ].
Qed.

Lemma record_items_missing (records : list dict) (k : string) :
  first_missing record_fields records = Some k ->
  ofor_each records record_item = Raise (mk_exn KeyError (repr_str k)).
Proof.
  induction records as [ | record r IH ]; intros H; [ discriminate | ].
  cbn [first_missing] in H. cbn [ofor_each].
  destruct (missing record_fields record) as [ k' | ] eqn:Hm.
  - injection H as <-. rewrite (record_item_missing record k' Hm). reflexivity.
  - destruct (record_item_complete record Hm) as (item & Hi & _).
    rewrite Hi. cbn. rewrite (IH H). reflexivity.
Qed.

(** What the record route does once both parameters are accepted and the
    read has returned. *)
Lemma records_view_read
      (w : World) (args : Request) (contest_id : list Byte.byte)
      (records : list dict) (s : State) :
  absent args "domainId" = false ->
  absent args "contest" = false ->
  Bson.ObjectId (args_get args "contest") = Ok contest_id ->
  find w "record" [("domainId", args_get args "domainId");
                   ("contest", PObjectId contest_id)] record_projection
  = Ok records ->
  records_view w args s
  = (match ofor_each records record_item with
     | Ok items =>
         match jsonify (PList items) with
         | Ok b => Ok (mk_response b 200)
         | Raise e => Raise e
         end
     | Raise e => Raise e
     end,
     mk_state (client_var s)
       (record_query (args_get args "domainId") contest_id :: history s)).
Proof.
  intros Hd Hk Ho Hf. unfold absent in Hd, Hk.
  unfold records_view. rewrite Hd, Hk, Ho.
  unfold respond, db_find. unfold bind, emit, lift, ret, record_query.
  cbn beta iota. fold record_projection. rewrite Hf.
  destruct (ofor_each records record_item) as [ items | e ]; [ | reflexivity ].
  destruct (jsonify (PList items)); reflexivity.
Qed.

(** X5.  On the record route, once the client is acquired, both parameters
    are given and the contest is an identifier: when every matched record
    has [_id], [status], [uid], [pid] and [score] and holds values the JSON
    provider can write, the answer is 200 with one item per record, in
    order, each with [_id] as a string, the four fields as stored and
    [judgeAt] as stored or None when the record has none. *)
Theorem record_documents
        (w : World) (args : Request) (s : State) (c : Client)
        (contest_id : list Byte.byte) (records : list dict) :
  connect_result w = Ok c ->
  absent args "domainId" = false ->
  absent args "contest" = false ->
  Bson.ObjectId (args_get args "contest") = Ok contest_id ->
  find w "record" [("domainId", args_get args "domainId");
                   ("contest", PObjectId contest_id)] record_projection
  = Ok records ->
  first_missing record_fields records = None ->
  forallb record_writable records = true ->
  exists items,
    serve Record_ w args s
    = (Ok (mk_response (PList items) 200),
       closed c [record_query (args_get args "domainId") contest_id] s)
    /\ Forall2 record_item_ok records items.
Proof.
  intros Hc Hd Hk Ho Hf Hm Hw.
  destruct (record_items_complete records Hm) as (items & Hi & Hall & Hs).
  exists items. split; [ | exact Hall ].
  apply (serve_connected Record_ w args c s
           (Ok (mk_response (PList items) 200))
           [record_query (args_get args "domainId") contest_id] Hc).
  cbn [view].
  rewrite (records_view_read w args contest_id records _ Hd Hk Ho Hf), Hi.
  unfold jsonify. cbn [serializable]. rewrite Hs, Hw. reflexivity.
Qed.

Lemma record_documents_witness :
  exists items,
    serve Record_ Fixture.up
      [("domainId", "system"); ("contest", "665f1f77bcf86cd799439021")]
      Fixture.fresh
    = (Ok (mk_response (PList items) 200),
       closed (mk_client "oj-mongo" 27017)
         [record_query (PStr "system")
            [Byte.x66; Byte.x5f; Byte.x1f; Byte.x77; Byte.xbc; Byte.xf8;
             Byte.x6c; Byte.xd7; Byte.x99; Byte.x43; Byte.x90; Byte.x21]]
         Fixture.fresh)
    /\ Forall2 record_item_ok
         (Fixture.select Fixture.database "record"
            [("domainId", PStr "system");
             ("contest", Fixture.oid "665f1f77bcf86cd799439021")]
            record_projection)
         items.
Proof.
  apply (record_documents Fixture.up
           [("domainId", "system"); ("contest", "665f1f77bcf86cd799439021")]
           Fixture.fresh (mk_client "oj-mongo" 27017)); reflexivity.
Defined.

(** X6.  On the record route, a matched record that lacks one of [_id],
    [status], [uid], [pid] or [score] fails the whole request: the answer
    is 500 whose error is the missing key in quotes, for the first such
    record and its first missing field in the order the item reads them;
    no item of the other records is returned.  A missing [judgeAt] is not
    such a field. *)
Theorem record_missing_field
        (w : World) (args : Request) (s : State) (c : Client)
        (contest_id : list Byte.byte) (records : list dict) (k : string) :
  connect_result w = Ok c ->
  absent args "domainId" = false ->
  absent args "contest" = false ->
  Bson.ObjectId (args_get args "contest") = Ok contest_id ->
  find w "record" [("domainId", args_get args "domainId");
                   ("contest", PObjectId contest_id)] record_projection
  = Ok records ->
  first_missing record_fields records = Some k ->
  serve Record_ w args s
  = (Ok (mk_response (error_body (repr_str k)) 500),
     closed c [record_query (args_get args "domainId") contest_id] s)
  /\ In k record_fields.
Proof.
  intros Hc Hd Hk Ho Hf Hm. split.
  - change (mk_response (error_body (repr_str k)) 500)
      with (settle (Raise (mk_exn KeyError (repr_str k)))).
    apply (serve_connected Record_ w args c s
             (Raise (mk_exn KeyError (repr_str k)))
             [record_query (args_get args "domainId") contest_id] Hc).
    cbn [view].
    rewrite (records_view_read w args contest_id records _ Hd Hk Ho Hf).
    rewrite (record_items_missing records k Hm). reflexivity.
  - clear Hf. induction records as [ | record r IH ]; [ discriminate | ].
    cbn [first_missing] in Hm.
    destruct (missing record_fields record) as [ k' | ] eqn:Hk';
      [ | exact (IH Hm) ].
    injection Hm as <-. unfold missing in Hk'.
    apply find_some in Hk'. exact (proj1 Hk').
Qed.

Definition incomplete_records : Fixture.Database :=
  [ ("record",
     [ [("_id", Fixture.oid "665f1f77bcf86cd799439031");
        ("domainId", PStr "system");
        ("contest", Fixture.oid "665f1f77bcf86cd799439021");
        ("status", PInt 1); ("uid", PInt 42); ("pid", PInt 1);
        ("score", PInt 100)];
       [("_id", Fixture.oid "665f1f77bcf86cd799439032");
        ("domainId", PStr "system");
        ("contest", Fixture.oid "665f1f77bcf86cd799439021");
        ("status", PInt 0); ("uid", PInt 43)] ]) ].

Lemma record_missing_field_witness :
  serve Record_ (Fixture.world true [] incomplete_records [])
    [("domainId", "system"); ("contest", "665f1f77bcf86cd799439021")]
    Fixture.fresh
  = (Ok (mk_response (error_body "'pid'") 500),
     closed (mk_client "oj-mongo" 27017)
       [record_query (PStr "system")
          [Byte.x66; Byte.x5f; Byte.x1f; Byte.x77; Byte.xbc; Byte.xf8;
           Byte.x6c; Byte.xd7; Byte.x99; Byte.x43; Byte.x90; Byte.x21]]
       Fixture.fresh)
  /\ In "pid" record_fields.
Proof.
  apply (record_missing_field (Fixture.world true [] incomplete_records [])
           [("domainId", "system"); ("contest", "665f1f77bcf86cd799439021")]
           Fixture.fresh (mk_client "oj-mongo" 27017)
           [Byte.x66; Byte.x5f; Byte.x1f; Byte.x77; Byte.xbc; Byte.xf8;
            Byte.x6c; Byte.xd7; Byte.x99; Byte.x43; Byte.x90; Byte.x21]
           (Fixture.select incomplete_records "record"
              [("domainId", PStr "system");
               ("contest", Fixture.oid "665f1f77bcf86cd799439021")]
              record_projection)
           "pid"); reflexivity.
Defined.

(** ** The user-group route's items (lines 203-217) *)

Definition group_query (domain_id : pyval) : Event :=
  EvFind "user.group" [("domainId", domain_id)]
    [("_id", one); ("name", one); ("uids", one)].

Definition group_fields : list string := ["_id"; "name"].

Definition group_writable (group : dict) : bool :=
  serializable (get group "name") && serializable (get_or group "uids" (PList [])).

(** The item of a group: [_id] as a string, [name] as stored, and [uids] as
    stored, whatever is stored under the key, or the empty list when the
    group has no such key. *)
Definition group_item_ok (group : dict) (item : pyval) : Prop :=
  exists id name,
    dict_get "_id" group = Some id
    /\ dict_get "name" group = Some name
    /\ item = PDict [("_id", PStr (str id)); ("name", name);
                     ("uids", match dict_get "uids" group with
                              | Some uids => uids
                              | None => PList []
                              end)].

Lemma group_item_complete (group : dict) :
  missing group_fields group = None ->
  exists item, group_item group = Ok item /\ group_item_ok group item
               /\ serializable item = group_writable group.
Proof.
  unfold missing, group_fields, group_item, group_item_ok, group_writable.
  unfold getitem, get, get_or, obind. cbn [List.find].
  destruct (dict_get "_id" group) as [ id | ]; [ | discriminate ].
  destruct (dict_get "name" group) as [ name | ]; [ | discriminate ].
  intros _. eexists. split; [ reflexivity | ]. split.
  - exists id, name. repeat split.
  - cbn. rewrite andb_true_r. reflexivity.
Qed.

Lemma group_items_complete (groups : list dict) :
  first_missing group_fields groups = None ->
  exists items,
    ofor_each groups group_item = Ok items
    /\ Forall2 group_item_ok groups items
    /\ forallb serializable items = forallb group_writable groups.
Proof.
  induction groups as [ | group r IH ]; intros H.
  - exists []. repeat split; constructor.
  - cbn [first_missing] in H.
    destruct (missing group_fields group) eqn:Hm; [ discriminate | ].
    destruct (group_item_complete group Hm) as (item & Hi & Hok & Hs).
    destruct (IH H) as (items & Hf & Hall & Hss).
    exists (item :: items). cbn [ofor_each]. rewrite Hi. cbn. rewrite Hf. cbn.
    repeat split; [ constructor; assumption | rewrite Hs, Hss; reflexivity ].
Qed.

(** X7.  On the user-group route, once the client is acquired and domainId
    is given: when every matched group has [_id] and [name] and holds values
    the JSON provider can write, the answer is 200 with one item per group,
    in order, each with [_id] as a string, [name] as stored, and [uids] as
    stored; the empty list stands in only when the group has no [uids] key,
    so a stored null comes back as null. *)
Theorem user_group_documents
        (w : World) (args : Request) (s : State) (c : Client)
        (groups : list dict) :
  connect_result w = Ok c ->
  absent args "domainId" = false ->
  find w "user.group" [("domainId", args_get args "domainId")]
    [("_id", one); ("name", one); ("uids", one)] = Ok groups ->
  first_missing group_fields groups = None ->
  forallb group_writable groups = true ->
  exists items,
    serve UserGroup w args s
    = (Ok (mk_response (PList items) 200),
       closed c [group_query (args_get args "domainId")] s)
    /\ Forall2 group_item_ok groups items.
Proof.
  intros Hc Hd Hf Hm Hw. unfold absent in Hd.
  destruct (group_items_complete groups Hm) as (items & Hi & Hall & Hs).
  exists items. split; [ | exact Hall ].
  apply (serve_connected UserGroup w args c s
           (Ok (mk_response (PList items) 200))
           [group_query (args_get args "domainId")] Hc).
  cbn [view]. unfold user_groups_view. rewrite Hd.
  unfold respond, db_find. unfold bind, emit, lift, ret, group_query.
  cbn beta iota. rewrite Hf. cbn beta iota. rewrite Hi.
  unfold jsonify. cbn [serializable]. rewrite Hs, Hw. reflexivity.
Qed.

Definition groups_with_null : Fixture.Database :=
  [ ("user.group",
     [ [("_id", Fixture.oid "665f1f77bcf86cd799439041");
        ("domainId", PStr "system"); ("name", PStr "class-1");
        ("uids", PList [PInt 42])];
       [("_id", Fixture.oid "665f1f77bcf86cd799439042");
        ("domainId", PStr "system"); ("name", PStr "class-2")];
       [("_id", Fixture.oid "665f1f77bcf86cd799439043");
        ("domainId", PStr "system"); ("name", PStr "class-3");
        ("uids", PNone)] ]) ].

Lemma user_group_documents_witness :
  exists items,
    serve UserGroup (Fixture.world true [] groups_with_null [])
      [("domainId", "system")] Fixture.fresh
    = (Ok (mk_response (PList items) 200),
       closed (mk_client "oj-mongo" 27017) [group_query (PStr "system")]
         Fixture.fresh)
    /\ Forall2 group_item_ok
         (Fixture.select groups_with_null "user.group"
            [("domainId", PStr "system")]
            [("_id", one); ("name", one); ("uids", one)])
         items.
Proof.
  apply (user_group_documents (Fixture.world true [] groups_with_null [])
           [("domainId", "system")] Fixture.fresh (mk_client "oj-mongo" 27017));
    reflexivity.
Defined.

(** The three groups of the fixture: a list, no key, and a stored null. *)
Example user_group_uids :
  fst (serve UserGroup (Fixture.world true [] groups_with_null [])
         [("domainId", "system")] Fixture.fresh)
  = Ok (mk_response
          (PList [PDict [("_id", PStr "665f1f77bcf86cd799439041");
                         ("name", PStr "class-1"); ("uids", PList [PInt 42])];
                  PDict [("_id", PStr "665f1f77bcf86cd799439042");
                         ("name", PStr "class-2"); ("uids", PList [])];
                  PDict [("_id", PStr "665f1f77bcf86cd799439043");
                         ("name", PStr "class-3"); ("uids", PNone)]])
          200).
Proof. reflexivity. Qed.

(** ** The user route (lines 168-184) *)

(** X8.  On the user route, once the client is acquired, for an [_id] that
    is a non-empty string of decimal digits, at most 4300 of them (the
    longest text [int] converts by default): the value is converted to the
    number it spells, one find_one is sent for that number, and the answer
    is 404 "User not found" when no user has that key and 200 with the
    stored name when one has; an [_id] that [isdigit] rejects is answered
    400 "_id must be an integer" without a read. *)
Theorem get_user_answers
        (w : World) (args : Request) (s : State) (c : Client) (v : string) :
  connect_result w = Ok c ->
  absent args "_id" = false ->
  lookup "_id" args = Some v ->
  (isdigit v = false ->
   serve User w args s
   = (Ok (mk_response (error_body "_id must be an integer") 400), closed c [] s))
  /\ (isdecimal v = true ->
      (String.length v <= 4300)%nat ->
      exists n,
        Py.int (PStr v) = Ok n /\ 0 <= n
        /\ (find_one w "user" [("_id", PInt n)] [("uname", one)] = Ok None ->
            serve User w args s
            = (Ok (mk_response (error_body "User not found") 404),
               closed c [user_query n] s))
        /\ (forall user uname,
              find_one w "user" [("_id", PInt n)] [("uname", one)]
              = Ok (Some user) ->
              dict_get "uname" user = Some (PStr uname) ->
              serve User w args s
              = (Ok (mk_response (PDict [("uname", PStr uname)]) 200),
                 closed c [user_query n] s))).
Proof.
  intros Hc Ha Hv.
  destruct (get_user_cases w args s c Hc Ha v Hv) as (Hbad & Hgood & _).
  split; [ exact Hbad | ].
  intros Hdec _.
  destruct (decimal_string_converts v Hdec) as (Hd & n & Hn & Hpos).
  exists n. split; [ exact Hn | ]. split; [ exact Hpos | ].
  exact (Hgood n Hd Hn).
Qed.

Lemma get_user_answers_witness :
  (isdigit "0042" = false ->
   serve User Fixture.up [("_id", "0042")] Fixture.fresh
   = (Ok (mk_response (error_body "_id must be an integer") 400),
      closed (mk_client "oj-mongo" 27017) [] Fixture.fresh))
  /\ exists n,
       Py.int (PStr "0042") = Ok n /\ 0 <= n
       /\ (find_one Fixture.up "user" [("_id", PInt n)] [("uname", one)]
           = Ok None ->
           serve User Fixture.up [("_id", "0042")] Fixture.fresh
           = (Ok (mk_response (error_body "User not found") 404),
              closed (mk_client "oj-mongo" 27017) [user_query n] Fixture.fresh))
       /\ (forall user uname,
             find_one Fixture.up "user" [("_id", PInt n)] [("uname", one)]
             = Ok (Some user) ->
             dict_get "uname" user = Some (PStr uname) ->
             serve User Fixture.up [("_id", "0042")] Fixture.fresh
             = (Ok (mk_response (PDict [("uname", PStr uname)]) 200),
                closed (mk_client "oj-mongo" 27017) [user_query n]
                  Fixture.fresh)).
Proof.
  destruct (get_user_answers Fixture.up [("_id", "0042")] Fixture.fresh
              (mk_client "oj-mongo" 27017) "0042" eq_refl eq_refl eq_refl)
    as [Hbad Hgood].
  split; [ exact Hbad | ].
  apply Hgood; [ reflexivity | cbn; lia ].
Defined.

(** An [_id] with leading zeros finds the user of the number it spells. *)
Example get_user_leading_zeros :
  fst (serve User Fixture.up [("_id", "0042")] Fixture.fresh)
  = Ok (mk_response (PDict [("uname", PStr "alice")]) 200).
Proof. reflexivity. Qed.

(** X9.  On the user route, a user that is found but has no [uname] is not
    answered 404 nor with an empty name: the answer is 500 whose error is
    the quoted key. *)
Theorem user_without_name
        (w : World) (args : Request) (s : State) (c : Client)
        (v : string) (n : Z) (user : dict) :
  connect_result w = Ok c ->
  lookup "_id" args = Some v ->
  isdigit v = true ->
  Py.int (PStr v) = Ok n ->
  find_one w "user" [("_id", PInt n)] [("uname", one)] = Ok (Some user) ->
  user <> [] ->
  dict_get "uname" user = None ->
  serve User w args s
  = (Ok (mk_response (error_body "'uname'") 500), closed c [user_query n] s).
Proof.
  intros Hc Hv Hd Hn Hf Hne Hu.
  assert (Hid : args_get args "_id" = PStr v)
    by (unfold args_get, args_get_or; rewrite Hv; reflexivity).
  assert (Ht : negb (truthy (args_get args "_id")) = false).
  { rewrite Hid. unfold isdigit in Hd. destruct v; [ discriminate | reflexivity ]. }
  change (mk_response (error_body "'uname'") 500)
    with (settle (Raise (mk_exn KeyError (repr_str "uname")))).
  apply (serve_connected User w args c s
           (Raise (mk_exn KeyError (repr_str "uname"))) [user_query n] Hc).
  cbn [view]. unfold user_view. rewrite Ht, Hid.
  unfold respond, db_find_one. unfold bind, lift, emit, ret.
  cbn - [Py.int]. rewrite Hd. cbn - [Py.int]. rewrite Hn. cbn. rewrite Hf. cbn.
  destruct user as [ | kv user' ]; [ contradiction | ].
  cbn [truthy]. unfold subscript, getitem. rewrite Hu. reflexivity.
Qed.

Lemma user_without_name_witness :
  serve User
    (Fixture.world true [] [("user", [ [("_id", PInt 7)] ])] [])
    [("_id", "7")] Fixture.fresh
  = (Ok (mk_response (error_body "'uname'") 500),
     closed (mk_client "oj-mongo" 27017) [user_query 7] Fixture.fresh).
Proof.
  apply (user_without_name
           (Fixture.world true [] [("user", [ [("_id", PInt 7)] ])] [])
           [("_id", "7")] Fixture.fresh (mk_client "oj-mongo" 27017)
           "7" 7 [("_id", PInt 7)]);
    first [ reflexivity | discriminate ].
Defined.

(** ** The docType 10 loop on a document it cannot shape (lines 76-100) *)

Lemma problem_item_without_config (w : World) (doc : dict) (s : State) :
  dict_get "config" doc = None ->
  problem_item w doc s = (Raise (mk_exn KeyError (repr_str "config")), s).
Proof.
  intros H. unfold problem_item, try_except, bind, lift, getitem.
  rewrite H. reflexivity.
Qed.

Lemma for_each_aborts (w : World) (ready : list dict) (doc : dict)
      (rest : list dict) (e : exn) :
  forallb (problem_ready w) ready = true ->
  (forall s, problem_item w doc s = (Raise e, s)) ->
  forall s, exists prints,
    for_each (ready ++ doc :: rest) (problem_item w) s
    = (Raise e, mk_state (client_var s) (prints ++ history s))
    /\ Forall is_print prints.
Proof.
  intros Hr Hdoc. induction ready as [ | d r IH ]; intros s.
  - exists []. cbn [app for_each]. unfold bind at 1. rewrite Hdoc.
    destruct s. split; [ reflexivity | constructor ].
  - cbn in Hr. apply andb_true_iff in Hr as [Hd Hr].
    destruct (problem_item_ready w d Hd) as (item & _ & _ & Hrun).
    destruct (Hrun s) as (evs1 & E1 & F1).
    destruct (IH Hr (mk_state (client_var s) (evs1 ++ history s)))
      as (evs2 & E2 & F2).
    exists (evs2 ++ evs1)%list.
    cbn [app for_each]. unfold bind at 1. rewrite E1.
    unfold bind at 1. rewrite E2. cbn. rewrite app_assoc.
    split; [ reflexivity | apply Forall_app; split; assumption ].
Qed.

(** X10.  In the docType 10 loop only a YAML error is kept to its item.  A
    matched document without a [config] field ends the request, also after
    documents that were shaped: the answer is 500 with error "'config'" and
    none of the items built before it is returned. *)
Theorem problem_without_config
        (w : World) (args : Request) (s : State) (c : Client)
        (ready : list dict) (doc : dict) (rest : list dict) :
  connect_result w = Ok c ->
  absent args "domainId" = false ->
  Py.int (args_get_or args "docType" (PInt 0)) = Ok 10 ->
  find w "document" [("domainId", args_get args "domainId"); ("docType", PInt 10)]
    [("_id", one); ("docId", one); ("title", one); ("pid", one); ("config", one)]
  = Ok (List.app ready (doc :: rest)) ->
  forallb (problem_ready w) ready = true ->
  dict_get "config" doc = None ->
  exists prints,
    serve Document w args s
    = (Ok (mk_response (error_body "'config'") 500),
       closed c (prints ++ [problem_query (args_get args "domainId")]) s)
    /\ Forall is_print prints.
Proof.
  intros Hc Hd Ht Hf Hr Hdoc. unfold absent in Hd.
  destruct (for_each_aborts w ready doc rest
              (mk_exn KeyError (repr_str "config")) Hr
              (fun s0 => problem_item_without_config w doc s0 Hdoc)
              (mk_state (Some c)
                 (problem_query (args_get args "domainId")
                  :: history (connected c s)))) as (prints & Hp & Fp).
  exists prints. split; [ | exact Fp ].
  change (mk_response (error_body "'config'") 500)
    with (settle (Raise (mk_exn KeyError (repr_str "config")))).
  apply (serve_connected Document w args c s
           (Raise (mk_exn KeyError (repr_str "config")))
           (prints ++ [problem_query (args_get args "domainId")]) Hc).
  cbn [view]. unfold documents_view, bind at 1, lift at 1. rewrite Ht, Hd.
  cbn [Z.eqb Pos.eqb negb]. unfold db_find. unfold bind, emit, lift.
  cbn beta iota. rewrite Hf. cbn beta iota.
  unfold problem_query, connected in Hp |- *.
  cbn [history client_var] in Hp |- *. rewrite Hp.
  rewrite <- app_assoc. reflexivity.
Qed.

Definition problems_one_without_config : Fixture.Database :=
  [ ("document",
     [ Fixture.problem "system" "665f1f77bcf86cd799439012" 2 "Broken" "P1001"
         "subtasks: [";
       [("_id", Fixture.oid "665f1f77bcf86cd799439016"); ("docType", PInt 10);
        ("domainId", PStr "system"); ("docId", PInt 6); ("title", PStr "Bare");
        ("pid", PStr "P1005")];
       Fixture.problem "system" "665f1f77bcf86cd799439014" 4 "Plain" "P1003"
         "time: 1s
" ]) ].

Lemma problem_without_config_witness :
  exists prints,
    serve Document
      (Fixture.world true [] problems_one_without_config Fixture.yaml_texts)
      [("domainId", "system"); ("docType", "10")] Fixture.fresh
    = (Ok (mk_response (error_body "'config'") 500),
       closed (mk_client "oj-mongo" 27017)
         (prints ++ [problem_query (PStr "system")]) Fixture.fresh)
    /\ Forall is_print prints.
Proof.
  apply (problem_without_config
           (Fixture.world true [] problems_one_without_config Fixture.yaml_texts)
           [("domainId", "system"); ("docType", "10")] Fixture.fresh
           (mk_client "oj-mongo" 27017)
           [ [("_id", Fixture.oid "665f1f77bcf86cd799439012");
              ("docId", PInt 2); ("title", PStr "Broken"); ("pid", PStr "P1001");
              ("config", PStr "subtasks: [")] ]
           [("_id", Fixture.oid "665f1f77bcf86cd799439016"); ("docId", PInt 6);
            ("title", PStr "Bare"); ("pid", PStr "P1005")]
           [ [("_id", Fixture.oid "665f1f77bcf86cd799439014");
              ("docId", PInt 4); ("title", PStr "Plain"); ("pid", PStr "P1003");
              ("config", PStr "time: 1s
")] ]); reflexivity.
Defined.

(** ** A read that fails (the [except] clauses, lines 106-109 and alike) *)

(** The exception the read behind an event raised, when it raised one. *)
Definition read_error (w : World) (q : Event) : option exn :=
  match q with
  | EvFind coll filter projection =>
      match find w coll filter projection with
      | Raise e => Some e
      | Ok _ => None
      end
  | EvFindOne coll filter projection =>
      match find_one w coll filter projection with
      | Raise e => Some e
      | Ok _ => None
      end
  | _ => None
  end.

(** [stops_at_read w m]: when a read that [m] sent raised, [m] raises that
    exception. *)
Definition stops_at_read {A : Type} (w : World) (m : M A) : Prop :=
  forall s o s' q e,
    m s = (o, s') -> In q (history s') -> ~ In q (history s) ->
    read_error w q = Some e -> o = Raise e.

Lemma read_error_query (w : World) (q : Event) (e : exn) :
  read_error w q = Some e -> is_query q = true.
Proof. destruct q; cbn; first [ discriminate | reflexivity ]. Qed.

Lemma silent_not_read (w : World) (evs : list Event) (q : Event) (e : exn) :
  Forall silent evs -> read_error w q = Some e -> ~ In q evs.
Proof.
  intros F Hq Hin. rewrite Forall_forall in F.
  destruct (F q Hin) as [_ Hs]. rewrite (read_error_query w q e Hq) in Hs.
  discriminate.
Qed.

Lemma stops_silent {A : Type} (w : World) (m : M A) :
  emits silent m -> stops_at_read w m.
Proof.
  intros Hm s o s' q e Hrun Hin Hnot Hq.
  destruct (Hm s) as (evs & Hs & F). rewrite Hrun in Hs. cbn in Hs. subst s'.
  cbn in Hin. apply in_app_or in Hin as [Hin | Hin]; [ | contradiction ].
  destruct (silent_not_read w evs q e F Hq Hin).
Qed.

Lemma stops_after_lift {A B : Type} (w : World) (x : outcome A) (k : A -> M B) :
  (forall a, stops_at_read w (k a)) -> stops_at_read w (bind (lift x) k).
Proof.
  intros Hk s o s' q e Hrun Hin Hnot Hq. unfold bind, lift in Hrun.
  destruct x as [a | e0].
  - exact (Hk a s o s' q e Hrun Hin Hnot Hq).
  - injection Hrun as <- <-. contradiction.
Qed.

(** A read, then nothing but prints: when the read raised, that is what the
    computation raises. *)
Lemma stops_read {A B : Type} (w : World) (q0 : Event) (x : outcome A)
      (k : A -> M B) :
  read_error w q0 = match x with Raise e => Some e | Ok _ => None end ->
  (forall a, emits silent (k a)) ->
  stops_at_read w (bind (bind (emit q0) (fun _ => lift x)) k).
Proof.
  intros Hq0 Hk s o s' q e Hrun Hin Hnot Hq.
  unfold bind, emit, lift in Hrun. cbn in Hrun.
  destruct x as [a | e0].
  - destruct (Hk a (mk_state (client_var s) (q0 :: history s))) as (evs & Hs & F).
    rewrite Hrun in Hs. cbn in Hs. subst s'. cbn in Hin.
    apply in_app_or in Hin as [Hin | [Hin | Hin]].
    + destruct (silent_not_read w evs q e F Hq Hin).
    + subst q0. congruence.
    + contradiction.
  - injection Hrun as <- <-. cbn in Hin. destruct Hin as [Hin | Hin].
    + subst q0. congruence.
    + contradiction.
Qed.

Lemma view_stops_at_read (r : Route) (w : World) (args : Request) :
  stops_at_read w (view r w args).
Proof.
  destruct r; cbn [view].
  - unfold documents_view.
    apply stops_after_lift. intros doc_type.
    destruct (negb (truthy (args_get args "domainId")));
      [ apply stops_silent, respond_silent | ].
    destruct (doc_type =? 30).
    { unfold db_find. apply stops_read; [ reflexivity | intros docs ].
      apply emits_bind; [ apply emits_lift | intros; apply respond_silent ]. }
    destruct (doc_type =? 10); [ | apply stops_silent, respond_silent ].
    unfold db_find. apply stops_read; [ reflexivity | intros docs ].
    apply emits_bind; [ | intros; apply respond_silent ].
    apply emits_for_each. intros doc. apply problem_item_silent.
  - unfold records_view.
    destruct (negb (truthy (args_get args "domainId")));
      [ apply stops_silent, respond_silent | ].
    destruct (negb (truthy (args_get args "contest")));
      [ apply stops_silent, respond_silent | ].
    destruct (Bson.ObjectId (args_get args "contest"));
      [ | apply stops_silent, respond_silent ].
    unfold db_find. apply stops_read; [ reflexivity | intros docs ].
    apply emits_bind; [ apply emits_lift | intros; apply respond_silent ].
  - unfold user_view.
    destruct (negb (truthy (args_get args "_id")));
      [ apply stops_silent, respond_silent | ].
    apply stops_after_lift. intros digits.
    destruct (negb digits); [ apply stops_silent, respond_silent | ].
    apply stops_after_lift. intros n.
    intros s o s' q e Hrun.
    apply (stops_read w (user_query n)
             (find_one w "user" [("_id", PInt n)] [("uname", one)])
             (fun r => bind (ret match r with
                                 | Some d => PDict d
                                 | None => PNone
                                 end)
                         (fun user =>
                            if truthy user
                            then bind (lift (subscript user "uname"))
                                   (fun uname =>
                                      respond (PDict [("uname", uname)]) 200)
                            else respond (error_body "User not found") 404))
             eq_refl).
    { intros r. apply emits_bind; [ apply emits_ret | intros user ].
      destruct (truthy user); [ | apply respond_silent ].
      apply emits_bind; [ apply emits_lift | intros; apply respond_silent ]. }
    rewrite <- Hrun. unfold db_find_one, bind, emit, lift, ret. cbn.
    destruct (find_one w "user" [("_id", PInt n)] [("uname", one)]);
      reflexivity.
  - unfold user_groups_view.
    destruct (negb (truthy (args_get args "domainId")));
      [ apply stops_silent, respond_silent | ].
    unfold db_find. apply stops_read; [ reflexivity | intros docs ].
    apply emits_bind; [ apply emits_lift | intros; apply respond_silent ].
Qed.

(** X11.  On every route, when the read a handler sent to the database
    raised an exception, the answer is the 500 built from that exception:
    the fixed connection message when it is a connection failure, the
    exception's own text otherwise.  Nothing of a partial result is
    returned. *)
Theorem read_failure
        (r : Route) (w : World) (args : Request) (s : State)
        (q : Event) (e : exn) :
  In q (history (snd (serve r w args s))) ->
  ~ In q (history s) ->
  read_error w q = Some e ->
  fst (serve r w args s) = Ok (error_response e).
Proof.
  rewrite serve_handler. intros Hin Hnot Hq.
  destruct (connect_result w) as [c | e0] eqn:Hc.
  - destruct (view r w args
                (mk_state (Some c) (EvPing c :: EvMongoClient c :: history s)))
      as [o s'] eqn:Hv.
    assert (Hcv : client_var s' = Some c).
    { destruct (view_emits r w args
                  (mk_state (Some c) (EvPing c :: EvMongoClient c :: history s)))
        as (evs & Hs & _). rewrite Hv in Hs. cbn in Hs. subst s'. reflexivity. }
    rewrite (handler_connected w c _ s _ o Hc Hv Hcv) in Hin |- *.
    cbn [fst snd history] in Hin |- *.
    pose proof (read_error_query w q e Hq) as Hquery.
    destruct Hin as [Hin | Hin]; [ subst q; discriminate | ].
    rewrite (view_stops_at_read r w args _ o s' q e Hv Hin); [ reflexivity | | exact Hq ].
    cbn. intros [H | [H | H]];
      [ subst q; discriminate | subst q; discriminate | contradiction ].
  - destruct (handler_not_connected w e0 (view r w args) s Hc)
      as (evs & Hh & _ & Hcount & _).
    rewrite Hh in Hin. cbn in Hin.
    apply in_app_or in Hin as [Hin | Hin]; [ | contradiction ].
    pose proof (read_error_query w q e Hq) as Hquery.
    exfalso. clear Hh. unfold count in Hcount.
    induction evs as [ | ev evs' IH ]; [ contradiction | ].
    cbn in Hcount. destruct Hin as [ -> | Hin ].
    + rewrite Hquery in Hcount. discriminate.
    + apply IH; [ exact Hin | ].
      destruct (is_query ev); [ discriminate | exact Hcount ].
Qed.

Definition failing_reads : World :=
  mk_world (fun _ => None) (fun _ _ => Ok tt) (fun _ => Ok tt)
    (fun _ _ _ => Raise (mk_exn PyMongoError "cursor id 7 not found"))
    (fun _ _ _ => Raise Fixture.timeout)
    (Fixture.loader []).

Lemma read_failure_witness :
  fst (serve UserGroup failing_reads [("domainId", "system")] Fixture.fresh)
  = Ok (error_response (mk_exn PyMongoError "cursor id 7 not found")).
Proof.
  apply (read_failure UserGroup failing_reads [("domainId", "system")]
           Fixture.fresh (group_query (PStr "system"))
           (mk_exn PyMongoError "cursor id 7 not found")).
  - right. left. reflexivity.
  - intros [].
  - reflexivity.
Defined.

(** A connection lost during the read is answered like a failed connect. *)
Example connection_lost_during_read :
  fst (serve User failing_reads [("_id", "42")] Fixture.fresh)
  = Ok connect_failed.
Proof. reflexivity. Qed.

(** ** The [__main__] block (lines 225-249) *)

(** The value the block stores in the environment: what the config gives
    for [mongo_host], the variable's value or oj-mongo standing in. *)
Definition host_of_config (config : dict) (env : list (string * string)) : pyval :=
  get_or config "mongo_host"
    (PStr match Main.getenv env "MONGO_HOST" with
          | Some v => v
          | None => "oj-mongo"
          end).

(** The environment after the block: MONGO_HOST is stored when config.yaml
    loads to a non-empty mapping and the value is a str without a null
    character. *)
Definition environ_after (h : Main.Host) (p : Main.Process)
  : list (string * string) :=
  match Main.config_yaml h with
  | Some (Ok (PDict (kv :: d))) =>
      match host_of_config (kv :: d) (Main.os_environ p) with
      | PStr s =>
          if has_char 0 s then Main.os_environ p
          else ("MONGO_HOST", s)
               :: List.filter (fun kv => negb (String.eqb "MONGO_HOST" (fst kv)))
                              (Main.os_environ p)
      | _ => Main.os_environ p
      end
  | _ => Main.os_environ p
  end.

(** The port after the block: the config's [docker_port] when config.yaml
    loads to a non-empty mapping that has one. *)
Definition port_after (h : Main.Host) (p : Main.Process) : pyval :=
  match Main.config_yaml h with
  | Some (Ok (PDict (kv :: d))) => get_or (kv :: d) "docker_port" (Main.DOCKER_PORT p)
  | _ => Main.DOCKER_PORT p
  end.

(** How the block ends, given how [app.run] ended. *)
Definition ending_of (r : Main.stop) : Main.ending :=
  match r with
  | Main.RaisedOther what => Main.Propagated what
  | _ => Main.Finished
  end.

Lemma main_result (h : Main.Host) (p : Main.Process) :
  fst (Main.main h p) = ending_of (Main.app_run h "0.0.0.0" (port_after h p))
  /\ Main.os_environ (snd (Main.main h p)) = environ_after h p
  /\ Main.DOCKER_PORT (snd (Main.main h p)) = port_after h p
  /\ Main.runs (snd (Main.main h p)) = ("0.0.0.0", port_after h p) :: Main.runs p.
Proof.
  unfold Main.main, Main.load_config, Main.apply_config, environ_after,
         port_after, host_of_config, ending_of.
  unfold Main.bbind, Main.btry, Main.blift, Main.bret, Main.print, Main.run,
         Main.environ_get, Main.get_DOCKER_PORT, Main.set_DOCKER_PORT.
  destruct p as [env port out0 runs0]. cbn [Main.os_environ Main.DOCKER_PORT
                                             Main.stdout Main.runs].
  destruct (Main.config_yaml h) as [ [ config | e ] | ].
  - destruct config as [ | [ | ] | n | [ | a t ] | [ | x l ] | [ | kv d ] | o | t ];
      try (cbn; destruct (Main.app_run h "0.0.0.0" port);
           cbn; repeat split; reflexivity).
    + cbn [truthy]. destruct (n =? 0); cbn;
        destruct (Main.app_run h "0.0.0.0" port); cbn; repeat split; reflexivity.
    + cbn [truthy call_get]. cbn beta iota.
      unfold Main.environ_setitem, Main.blift.
      destruct (get_or (kv :: d) "mongo_host" _)
        as [ | b | n | host | l | d' | o | t ];
        try (cbn;
             destruct (Main.app_run h "0.0.0.0"
                         (get_or (kv :: d) "docker_port" port));
             cbn; repeat split; reflexivity).
      destruct (has_char 0 host); cbn;
        destruct (Main.app_run h "0.0.0.0" (get_or (kv :: d) "docker_port" port));
        cbn; repeat split; reflexivity.
  - destruct (isinstance e YAMLError); cbn;
      destruct (Main.app_run h "0.0.0.0" port); cbn; repeat split; reflexivity.
  - cbn. destruct (Main.app_run h "0.0.0.0" port); cbn; repeat split; reflexivity.
Qed.

Lemma getenv_filter (env : list (string * string)) (k k' : string) :
  k' <> k ->
  Main.getenv (List.filter (fun kv => negb (String.eqb k (fst kv))) env) k'
  = Main.getenv env k'.
Proof.
  intros Hne. induction env as [ | [a v] r IH ]; [ reflexivity | ].
  cbn. destruct (String.eqb_spec k a) as [ <- | Hka ]; cbn.
  - destruct (String.eqb_spec k' k); [ contradiction | exact IH ].
  - rewrite IH. reflexivity.
Qed.

Lemma getenv_environ_after (h : Main.Host) (p : Main.Process) (k : string) :
  k <> "MONGO_HOST" ->
  Main.getenv (environ_after h p) k = Main.getenv (Main.os_environ p) k.
Proof.
  intros Hne. unfold environ_after.
  destruct (Main.config_yaml h) as [ [ [ | | | | | [ | kv d ] | | ] | ] | ];
    try reflexivity.
  destruct (host_of_config (kv :: d) (Main.os_environ p)); try reflexivity.
  destruct (has_char 0 s); [ reflexivity | ].
  cbn [Main.getenv]. destruct (String.eqb_spec k "MONGO_HOST"); [ contradiction | ].
  apply getenv_filter. exact Hne.
Qed.

(** X12.  The block always gets to [app.run]: whether config.yaml is
    absent, unreadable, not YAML, empty or of any content, [app.run] is
    called exactly once, on 0.0.0.0, with the value [DOCKER_PORT] has by
    then.  The block ends normally when [app.run] returns and when it raises
    an Exception, which line 248 catches; what [app.run] raises that is not
    an Exception (SystemExit, KeyboardInterrupt) leaves the block. *)
Theorem main_always_serves (h : Main.Host) (p : Main.Process) :
  Main.runs (snd (Main.main h p))
  = ("0.0.0.0", Main.DOCKER_PORT (snd (Main.main h p))) :: Main.runs p
  /\ match Main.app_run h "0.0.0.0" (Main.DOCKER_PORT (snd (Main.main h p))) with
     | Main.Returned | Main.RaisedException _ => fst (Main.main h p) = Main.Finished
     | Main.RaisedOther what => fst (Main.main h p) = Main.Propagated what
     end.
Proof.
  destruct (main_result h p) as (Hend & _ & Hport & Hruns).
  rewrite Hruns, Hport. split; [ reflexivity | ].
  rewrite Hend. destruct (Main.app_run h "0.0.0.0" (port_after h p)); reflexivity.
Qed.

(** A server that cannot bind and exits is not caught by line 248; one that
    raises an OSError is. *)
Example main_exit_propagates :
  fst (Main.main (Main.mk_host None (fun _ _ => Main.RaisedOther "SystemExit"))
         (Main.start []))
  = Main.Propagated "SystemExit"
  /\ Main.main (Main.mk_host None
                  (fun _ _ => Main.RaisedException
                                (mk_exn RuntimeError "Address already in use")))
       (Main.start [])
     = (Main.Finished,
        Main.mk_process [] (PInt 5000)
          ["An error occurred: Address already in use";
           "Config file config.yaml not found, using environment variables or defaults."]
          [("0.0.0.0", PInt 5000)]).
Proof. split; reflexivity. Qed.

(** X13.  When config.yaml loads to a non-empty mapping, the port the server
    is started on is the mapping's [docker_port], or the port set before
    (5000) when it has none; this holds whatever the mapping gives for
    [mongo_host], also a value the environment then rejects, since the port
    is taken before the host is stored. *)
Theorem main_port_from_config
        (h : Main.Host) (p : Main.Process) (kv : string * pyval) (d : dict) :
  Main.config_yaml h = Some (Ok (PDict (kv :: d))) ->
  Main.runs (snd (Main.main h p))
  = ("0.0.0.0", get_or (kv :: d) "docker_port" (Main.DOCKER_PORT p))
    :: Main.runs p.
Proof.
  intros Hc. destruct (main_result h p) as (_ & _ & _ & Hruns).
  rewrite Hruns. unfold port_after. rewrite Hc. reflexivity.
Qed.

Definition silent_run : string -> pyval -> Main.stop := fun _ _ => Main.Returned.

Lemma main_port_from_config_witness :
  Main.runs
    (snd (Main.main
            (Main.mk_host
               (Some (Ok (PDict [("mongo_host", PInt 3); ("docker_port", PInt 8080)])))
               silent_run)
            (Main.start [])))
  = ("0.0.0.0",
     get_or [("mongo_host", PInt 3); ("docker_port", PInt 8080)] "docker_port"
       (Main.DOCKER_PORT (Main.start [])))
    :: Main.runs (Main.start []).
Proof.
  apply (main_port_from_config
           (Main.mk_host
              (Some (Ok (PDict [("mongo_host", PInt 3); ("docker_port", PInt 8080)])))
              silent_run)
           (Main.start []) ("mongo_host", PInt 3) [("docker_port", PInt 8080)]).
  reflexivity.
Defined.

(** X14.  Unless config.yaml loads to a non-empty mapping, the block changes
    neither the environment nor the port: an absent or unreadable file, a
    YAML error, an empty file, and a file whose top level is a list or a
    scalar all leave both as they were. *)
Theorem main_without_mapping (h : Main.Host) (p : Main.Process) :
  (forall kv d, Main.config_yaml h <> Some (Ok (PDict (kv :: d)))) ->
  Main.os_environ (snd (Main.main h p)) = Main.os_environ p
  /\ Main.DOCKER_PORT (snd (Main.main h p)) = Main.DOCKER_PORT p.
Proof.
  intros Hno. destruct (main_result h p) as (_ & Henv & Hport & _).
  rewrite Henv, Hport. unfold environ_after, port_after.
  destruct (Main.config_yaml h) as [ [ [ | | | | | [ | kv d ] | | ] | ] | ];
    try (split; reflexivity).
  destruct (Hno kv d eq_refl).
Qed.

Lemma main_without_mapping_witness :
  Main.os_environ
    (snd (Main.main
            (Main.mk_host (Some (Ok (PList [PStr "mongo_host"; PStr "db"])))
               silent_run)
            (Main.start [("MONGO_HOST", "db0")])))
  = Main.os_environ (Main.start [("MONGO_HOST", "db0")])
  /\ Main.DOCKER_PORT
       (snd (Main.main
               (Main.mk_host (Some (Ok (PList [PStr "mongo_host"; PStr "db"])))
                  silent_run)
               (Main.start [("MONGO_HOST", "db0")])))
     = Main.DOCKER_PORT (Main.start [("MONGO_HOST", "db0")]).
Proof.
  apply (main_without_mapping
           (Main.mk_host (Some (Ok (PList [PStr "mongo_host"; PStr "db"])))
              silent_run)
           (Main.start [("MONGO_HOST", "db0")])).
  intros kv d. discriminate.
Defined.

(** X15.  The block changes no environment variable other than MONGO_HOST:
    in particular the port of the database, MONGO_PORT, cannot be set from
    config.yaml. *)
Theorem main_keeps_other_variables
        (h : Main.Host) (p : Main.Process) (k : string) :
  k <> "MONGO_HOST" ->
  Main.getenv (Main.os_environ (snd (Main.main h p))) k
  = Main.getenv (Main.os_environ p) k.
Proof.
  intros Hne. destruct (main_result h p) as (_ & Henv & _).
  rewrite Henv. apply getenv_environ_after. exact Hne.
Qed.

Lemma main_keeps_other_variables_witness :
  Main.getenv
    (Main.os_environ
       (snd (Main.main
               (Main.mk_host
                  (Some (Ok (PDict [("mongo_host", PStr "db");
                                    ("mongo_port", PInt 27018)])))
                  silent_run)
               (Main.start [("MONGO_PORT", "27017")]))))
    "MONGO_PORT"
  = Main.getenv (Main.os_environ (Main.start [("MONGO_PORT", "27017")]))
      "MONGO_PORT".
Proof.
  apply (main_keeps_other_variables
           (Main.mk_host
              (Some (Ok (PDict [("mongo_host", PStr "db");
                                ("mongo_port", PInt 27018)])))
              silent_run)
           (Main.start [("MONGO_PORT", "27017")]) "MONGO_PORT").
  discriminate.
Defined.

(** X16.  The host named in config.yaml reaches the driver: when the file
    loads to a mapping whose [mongo_host] is a str (without a null
    character), a handler that runs with the environment the block leaves
    builds its client for that host, whatever MONGO_HOST was before. *)
Theorem config_host_reaches_the_driver
        (h : Main.Host) (p : Main.Process) (d : dict) (host : string)
        (w : World) (s s' : State) (c : Client) :
  Main.config_yaml h = Some (Ok (PDict d)) ->
  dict_get "mongo_host" d = Some (PStr host) ->
  has_char 0 host = false ->
  (forall k, environ w k = Main.getenv (Main.os_environ (snd (Main.main h p))) k) ->
  get_mongo_client w s = (Ok c, s') ->
  client_host c = host.
Proof.
  intros Hc Hd Hnul Henv Hget.
  destruct (main_result h p) as (_ & Hafter & _).
  assert (Hhost : environ w "MONGO_HOST" = Some host).
  { rewrite Henv, Hafter. unfold environ_after, host_of_config, get_or.
    rewrite Hc. destruct d as [ | kv d' ]; [ discriminate | ].
    rewrite Hd, Hnul. reflexivity. }
  pose proof (get_mongo_client_steps w s) as Hs.
  destruct (mongo_port_of w) as [port | e0]; [ | congruence ].
  cbn zeta in Hs.
  destruct (mongo_client w _ port) as [ [] | e1 ]; [ | congruence ].
  destruct (ping w _) as [ [] | e2 ]; [ | congruence ].
  rewrite Hs in Hget. injection Hget as <- _. cbn.
  unfold mongo_host_of, environ_get. rewrite Hhost. reflexivity.
Qed.

Definition configured_host : Main.Host :=
  Main.mk_host (Some (Ok (PDict [("mongo_host", PStr "db.internal")]))) silent_run.

Definition after_startup : World :=
  Fixture.world true
    (Main.os_environ
       (snd (Main.main configured_host (Main.start [("MONGO_HOST", "old-host")]))))
    Fixture.database Fixture.yaml_texts.

Lemma config_host_reaches_the_driver_witness :
  client_host (mk_client "db.internal" 27017) = "db.internal".
Proof.
  apply (config_host_reaches_the_driver configured_host
           (Main.start [("MONGO_HOST", "old-host")])
           [("mongo_host", PStr "db.internal")] "db.internal"
           after_startup Fixture.fresh
           (mk_state None [EvPing (mk_client "db.internal" 27017);
                           EvMongoClient (mk_client "db.internal" 27017)])
           (mk_client "db.internal" 27017)).
  - reflexivity.
  - reflexivity.
  - reflexivity.
  - intros k. reflexivity.
  - reflexivity.
Defined.

(** ** The contest identifier and its text (lines 133-139, 143) *)

Definition is_hex (c : ascii) : bool :=
  match Bson.hex_value c with
  | Some _ => true
  | None => false
  end.

(** The lower-case form of an ASCII letter. *)
Definition lower (c : ascii) : ascii :=
  if (65 <=? code c) && (code c <=? 90)
  then ascii_of_N (Z.to_N (code c + 32)) else c.

Definition lower_str (v : string) : string :=
  string_of_list_ascii (map lower (list_ascii_of_string v)).

Lemma hex_value_digit (c : ascii) (n : Z) :
  Bson.hex_value c = Some n ->
  (exists i, n = Z.of_nat i /\ (i < 16)%nat)
  /\ hex_digit n = lower c /\ Bson.is_ascii_space c = false.
Proof.
  destruct c as [[] [] [] [] [] [] [] []]; cbn; intros H;
    first [ discriminate
          | injection H as <-;
            split; [ | split; reflexivity ];
            first [ exists 0%nat; split; [ reflexivity | lia ]
                  | exists 1%nat; split; [ reflexivity | lia ]
                  | exists 2%nat; split; [ reflexivity | lia ]
                  | exists 3%nat; split; [ reflexivity | lia ]
                  | exists 4%nat; split; [ reflexivity | lia ]
                  | exists 5%nat; split; [ reflexivity | lia ]
                  | exists 6%nat; split; [ reflexivity | lia ]
                  | exists 7%nat; split; [ reflexivity | lia ]
                  | exists 8%nat; split; [ reflexivity | lia ]
                  | exists 9%nat; split; [ reflexivity | lia ]
                  | exists 10%nat; split; [ reflexivity | lia ]
                  | exists 11%nat; split; [ reflexivity | lia ]
                  | exists 12%nat; split; [ reflexivity | lia ]
                  | exists 13%nat; split; [ reflexivity | lia ]
                  | exists 14%nat; split; [ reflexivity | lia ]
                  | exists 15%nat; split; [ reflexivity | lia ] ] ].
Qed.

Lemma hex2_byte (i j : nat) :
  (i < 16)%nat -> (j < 16)%nat ->
  hex2 (Z.of_N (Byte.to_N (Bson.byte_of_Z (16 * Z.of_nat i + Z.of_nat j))))
  = String (hex_digit (Z.of_nat i)) (String (hex_digit (Z.of_nat j)) "").
Proof.
  intros Hi Hj.
  do 16 (destruct i as [ | i ];
         [ do 16 (destruct j as [ | j ]; [ reflexivity | ]); lia | ]).
  lia.
Qed.

Lemma hexlify_cons (b : Byte.byte) (bs : list Byte.byte) :
  hexlify (b :: bs) = hex2 (Z.of_N (Byte.to_N b)) ++ hexlify bs.
Proof.
  unfold hexlify. cbn [map concat].
  destruct (map _ bs) as [ | x l ]; [ | reflexivity ].
  cbn. reflexivity.
Qed.

(** [bytes.fromhex] on hexadecimal digits alone, two at a time, and
    [hexlify] back. *)
Lemma fromhex_hexlify (n : nat) (cs : list ascii) :
  List.length cs = (2 * n)%nat ->
  forallb is_hex cs = true ->
  exists bs,
    Bson.fromhex cs = Some bs /\ List.length bs = n
    /\ hexlify bs = string_of_list_ascii (map lower cs).
Proof.
  revert cs. induction n as [ | n IH ]; intros cs Hlen Hhex.
  - destruct cs; [ | discriminate ]. exists []. repeat split.
  - destruct cs as [ | c [ | c2 r ] ];
      [ cbn in Hlen; lia | cbn in Hlen; lia | ].
    cbn [forallb] in Hhex. apply andb_true_iff in Hhex as [Hc Hhex].
    apply andb_true_iff in Hhex as [Hc2 Hr].
    unfold is_hex in Hc, Hc2.
    destruct (Bson.hex_value c) as [ hi | ] eqn:Ehi; [ | discriminate ].
    destruct (Bson.hex_value c2) as [ lo | ] eqn:Elo; [ | discriminate ].
    destruct (hex_value_digit c hi Ehi) as ((i & -> & Hi) & Hdi & Hsp).
    destruct (hex_value_digit c2 lo Elo) as ((j & -> & Hj) & Hdj & _).
    destruct (IH r) as (bs & Hf & Hl & Hx); [ cbn in Hlen; lia | exact Hr | ].
    exists (Bson.byte_of_Z (16 * Z.of_nat i + Z.of_nat j) :: bs).
    cbn [Bson.fromhex]. rewrite Hsp, Ehi, Elo, Hf.
    split; [ reflexivity | ]. split; [ cbn; rewrite Hl; reflexivity | ].
    rewrite hexlify_cons, (hex2_byte i j Hi Hj), Hdi, Hdj, Hx. reflexivity.
Qed.

Lemma length_list_ascii (v : string) :
  List.length (list_ascii_of_string v) = String.length v.
Proof. induction v as [ | c v IH ]; [ reflexivity | cbn; rewrite IH; reflexivity ]. Qed.

(** X17.  A contest parameter of 24 hexadecimal digits is always accepted
    as an identifier; the identifier has 12 bytes and its text, as [str]
    writes the [_id] of an item, is the parameter in lower case: the
    identifier the records are matched against is the one the caller
    spelled. *)
Theorem contest_round_trip (v : string) :
  String.length v = 24%nat ->
  forallb is_hex (list_ascii_of_string v) = true ->
  exists contest_id,
    Bson.ObjectId (PStr v) = Ok contest_id
    /\ List.length contest_id = 12%nat
    /\ str (PObjectId contest_id) = lower_str v.
Proof.
  intros Hlen Hhex.
  destruct (fromhex_hexlify 12 (list_ascii_of_string v)) as (bs & Hf & Hl & Hx).
  - rewrite length_list_ascii. exact Hlen.
  - exact Hhex.
  - exists bs. unfold Bson.ObjectId. rewrite Hlen, Hf.
    repeat split; [ exact Hl | exact Hx ].
Qed.

Lemma contest_round_trip_witness :
  exists contest_id,
    Bson.ObjectId (PStr "665F1F77BCF86CD799439021") = Ok contest_id
    /\ List.length contest_id = 12%nat
    /\ str (PObjectId contest_id) = lower_str "665F1F77BCF86CD799439021".
Proof.
  apply (contest_round_trip "665F1F77BCF86CD799439021"); reflexivity.
Defined.

(** An upper-case contest finds the records of the identifier it spells. *)
Example contest_in_upper_case :
  lower_str "665F1F77BCF86CD799439021" = "665f1f77bcf86cd799439021"
  /\ fst (serve Record_ Fixture.up
            [("domainId", "system"); ("contest", "665F1F77BCF86CD799439021")]
            Fixture.fresh)
     = fst (serve Record_ Fixture.up
              [("domainId", "system"); ("contest", "665f1f77bcf86cd799439021")]
              Fixture.fresh).
Proof. split; reflexivity. Qed.

(** ** What the handlers ask the database *)

(** A read as the handlers send them: a find filters on a [domainId] that is
    a non-empty string, a find_one is on the collection [user] and filters
    on an integer [_id] alone. *)
Definition scoped_read (ev : Event) : Prop :=
  match ev with
  | EvFind _ filter _ =>
      exists d, dict_get "domainId" filter = Some (PStr d) /\ d <> ""
  | EvFindOne coll filter _ => coll = "user" /\ exists n, filter = [("_id", PInt n)]
  | _ => True
  end.

Definition scoped (ev : Event) : Prop := is_lifecycle ev = false /\ scoped_read ev.

Lemma emits_impl {A : Type} (P Q : Event -> Prop) (m : M A) :
  (forall ev, P ev -> Q ev) -> emits P m -> emits Q m.
Proof.
  intros HPQ Hm s. destruct (Hm s) as (evs & Hs & F).
  exists evs. split; [ exact Hs | ].
  eapply Forall_impl; [ exact HPQ | exact F ].
Qed.

Lemma silent_scoped (ev : Event) : silent ev -> scoped ev.
Proof.
  intros [Hl Hq]. split; [ exact Hl | ].
  destruct ev; cbn in Hq |- *; first [ exact I | discriminate ].
Qed.

Lemma truthy_arg (args : Request) (k : string) :
  negb (truthy (args_get args k)) = false ->
  exists v, args_get args k = PStr v /\ v <> "".
Proof.
  unfold args_get, args_get_or. destruct (lookup k args) as [ v | ]; [ | discriminate ].
  intros H. exists v. split; [ reflexivity | ].
  intros ->. discriminate.
Qed.

Lemma find_scoped {A : Type} (w : World) (coll : string) (filter projection : dict)
      (k : list dict -> M A) :
  scoped_read (EvFind coll filter projection) ->
  (forall docs, emits silent (k docs)) ->
  emits scoped (bind (db_find w coll filter projection) k).
Proof.
  intros Hq Hk. apply emits_bind.
  - unfold db_find. apply emits_bind; [ | intros; apply emits_lift ].
    apply emits_emit. split; [ reflexivity | exact Hq ].
  - intros docs. apply (emits_impl silent scoped); [ exact silent_scoped | apply Hk ].
Qed.

Lemma view_scoped (r : Route) (w : World) (args : Request) :
  emits scoped (view r w args).
Proof.
  assert (Hresp : forall v code, emits scoped (respond v code)).
  { intros v code. apply (emits_impl silent scoped);
      [ exact silent_scoped | apply respond_silent ]. }
  destruct r; cbn [view].
  - unfold documents_view.
    apply emits_bind; [ apply emits_lift | intros doc_type ].
    destruct (negb (truthy (args_get args "domainId"))) eqn:Hd; [ apply Hresp | ].
    destruct (truthy_arg args "domainId" Hd) as (d & -> & Hne).
    destruct (doc_type =? 30).
    { apply find_scoped; [ exists d; split; [ reflexivity | exact Hne ] | ].
      intros docs. apply emits_bind; [ apply emits_lift | intros; apply respond_silent ]. }
    destruct (doc_type =? 10); [ | apply Hresp ].
    apply find_scoped; [ exists d; split; [ reflexivity | exact Hne ] | ].
    intros docs. apply emits_bind; [ | intros; apply respond_silent ].
    apply emits_for_each. intros doc. apply problem_item_silent.
  - unfold records_view.
    destruct (negb (truthy (args_get args "domainId"))) eqn:Hd; [ apply Hresp | ].
    destruct (truthy_arg args "domainId" Hd) as (d & Hdv & Hne). rewrite Hdv.
    destruct (negb (truthy (args_get args "contest"))); [ apply Hresp | ].
    destruct (Bson.ObjectId (args_get args "contest")); [ | apply Hresp ].
    apply find_scoped; [ exists d; split; [ reflexivity | exact Hne ] | ].
    intros docs. apply emits_bind; [ apply emits_lift | intros; apply respond_silent ].
  - unfold user_view.
    destruct (negb (truthy (args_get args "_id"))); [ apply Hresp | ].
    apply emits_bind; [ apply emits_lift | intros digits ].
    destruct (negb digits); [ apply Hresp | ].
    apply emits_bind; [ apply emits_lift | intros n ].
    apply emits_bind.
    + unfold db_find_one. apply emits_bind.
      * apply emits_emit. split; [ reflexivity | ].
        split; [ reflexivity | exists n; reflexivity ].
      * intros _. apply emits_bind; [ apply emits_lift | intros; apply emits_ret ].
    + intros user. destruct (truthy user); [ | apply Hresp ].
      apply emits_bind; [ apply emits_lift | intros; apply Hresp ].
  - unfold user_groups_view.
    destruct (negb (truthy (args_get args "domainId"))) eqn:Hd; [ apply Hresp | ].
    destruct (truthy_arg args "domainId" Hd) as (d & -> & Hne).
    apply find_scoped; [ exists d; split; [ reflexivity | exact Hne ] | ].
    intros docs. apply emits_bind; [ apply emits_lift | intros; apply respond_silent ].
Qed.

(** X18.  Whatever the request, a handler only asks the database what its
    route is for: every find it sends filters on a [domainId] that is a
    non-empty string taken from the query string, and the one find_one is
    on the collection [user] with a filter that is an integer [_id] and
    nothing else.  No read is sent without such a filter. *)
Theorem reads_are_scoped
        (r : Route) (w : World) (args : Request) (s : State) :
  exists evs : list Event,
    history (snd (serve r w args s)) = List.app evs (history s)
    /\ Forall scoped_read evs.
Proof.
  rewrite serve_handler.
  destruct (connect_result w) as [c | e] eqn:Hc.
  - destruct (emits_run scoped (view r w args)
                (mk_state (Some c) (EvPing c :: EvMongoClient c :: history s))
                (view_scoped r w args)) as (o & evs & Hv & F).
    rewrite (handler_connected w c _ s _ o Hc Hv eq_refl). cbn [snd history].
    exists (EvClose c :: evs ++ [EvPing c; EvMongoClient c])%list.
    split; [ cbn; rewrite <- app_assoc; reflexivity | ].
    constructor; [ exact I | ].
    apply Forall_app. split; [ | repeat constructor ].
    eapply Forall_impl; [ | exact F ]. intros ev [_ H]. exact H.
  - destruct (handler_not_connected w e (view r w args) s Hc)
      as (evs & Hh & _ & Hq & _).
    rewrite Hh. exists evs. split; [ reflexivity | ].
    clear Hh. unfold count in Hq.
    induction evs as [ | ev evs' IH ]; [ constructor | ].
    cbn in Hq. destruct (is_query ev) eqn:Hev; [ discriminate | ].
    constructor; [ | exact (IH Hq) ].
    destruct ev; cbn in Hev |- *; first [ exact I | discriminate ].
Qed.
